(** * zh_scraper: [get_extinction], its validation, request and response scan

    A shallow embedding of [src/zh_scraper.py].  The function validates its
    five arguments, performs one [requests.get], extracts the visible text
    of the answer with BeautifulSoup and scans it line by line for two
    labelled statistics.

    Conventions of the embedding.
    - Python [str] values are [string]s whose characters are read as code
      points: the model covers the text whose code points lie below 256.
      The whitespace and line-boundary tables below are Python's tables
      for these code points; [upper] changes the ASCII letters only, which
      is all that a comparison with ["LMC"] or ["SMC"] can observe (no other
      code point below 256 is upper-cased to one of L, M, C, S).
    - Python [float] values are [spec_float]s of binary64; the program does
      no float arithmetic, only decimal-to-binary conversion (literals and
      [float(str)]) and comparisons, both of which are modelled exactly.
    - Exceptions are values of [exn]; code that may raise returns
      [exn + A].  The HTTP call is the one effect: it is threaded through a
      small monad that logs every request made. *)

From Stdlib Require Import ZArith List String Ascii Bool Lia SpecFloat QArith Qabs.
Import ListNotations.

Local Open Scope string_scope.
Local Open Scope Z_scope.

(** ** Python builtins on [str] (code points below 256) *)

Module PyStr.

(** [str.isspace] on one character, the whitespace of [strip] and
    [split]: TAB, LF, VT, FF, CR, FS, GS, RS, US, SPACE, NEL (U+0085) and
    NO-BREAK SPACE (U+00A0). *)
Definition is_space (c : ascii) : bool :=
  let n := Z.of_nat (nat_of_ascii c) in
  ((9 <=? n) && (n <=? 13)) || ((28 <=? n) && (n <=? 32))
  || (n =? 133) || (n =? 160).

(** Line boundaries of [str.splitlines]: LF, VT, FF, CR, FS, GS, RS and
    NEL (U+0085); CR LF counts as one boundary. *)
Definition is_linebreak (c : ascii) : bool :=
  let n := Z.of_nat (nat_of_ascii c) in
  ((10 <=? n) && (n <=? 13)) || ((28 <=? n) && (n <=? 30)) || (n =? 133).

(** The whitespace that [float(str)] strips: the C whitespace TAB, LF, VT,
    FF, CR, SPACE, and the whitespace above 127, which [float] first turns
    into spaces (FS, GS, RS and US are left as they are, and make the
    conversion fail). *)
Definition is_float_space (c : ascii) : bool :=
  let n := Z.of_nat (nat_of_ascii c) in
  ((9 <=? n) && (n <=? 13)) || (n =? 32) || (n =? 133) || (n =? 160).

Definition is_digit (c : ascii) : bool :=
  let n := Z.of_nat (nat_of_ascii c) in (48 <=? n) && (n <=? 57).

Definition digit_val (c : ascii) : Z := Z.of_nat (nat_of_ascii c) - 48.

Definition upper_char (c : ascii) : ascii :=
  let n := nat_of_ascii c in
  if ((97 <=? n) && (n <=? 122))%nat then ascii_of_nat (n - 32) else c.

Definition lower_char (c : ascii) : ascii :=
  let n := nat_of_ascii c in
  if ((65 <=? n) && (n <=? 90))%nat then ascii_of_nat (n + 32) else c.

Fixpoint map_chars (f : ascii -> ascii) (s : string) : string :=
  match s with
  | EmptyString => EmptyString
  | String c r => String (f c) (map_chars f r)
  end.

(** [s.upper()] and [s.lower()] *)
Definition upper : string -> string := map_chars upper_char.
Definition lower : string -> string := map_chars lower_char.

(** [sub in s] *)
Fixpoint contains (sub s : string) : bool :=
  if prefix sub s then true
  else match s with
       | EmptyString => false
       | String _ r => contains sub r
       end.

(** [s.lstrip()], [s.rstrip()], [s.strip()] *)
Fixpoint lstrip (s : string) : string :=
  match s with
  | EmptyString => EmptyString
  | String c r => if is_space c then lstrip r else s
  end.

Fixpoint rstrip (s : string) : string :=
  match s with
  | EmptyString => EmptyString
  | String c r =>
      match rstrip r with
      | EmptyString => if is_space c then EmptyString else String c EmptyString
      | r' => String c r'
      end
  end.

Definition strip (s : string) : string := rstrip (lstrip s).

(** Stripping the characters that satisfy [p] from both ends. *)
Fixpoint lstrip_with (p : ascii -> bool) (s : string) : string :=
  match s with
  | EmptyString => EmptyString
  | String c r => if p c then lstrip_with p r else s
  end.

Fixpoint rstrip_with (p : ascii -> bool) (s : string) : string :=
  match s with
  | EmptyString => EmptyString
  | String c r =>
      match rstrip_with p r with
      | EmptyString => if p c then EmptyString else String c EmptyString
      | r' => String c r'
      end
  end.

Definition strip_with (p : ascii -> bool) (s : string) : string :=
  rstrip_with p (lstrip_with p s).

(** [s.splitlines()]: no empty last line after a final boundary, and the
    empty string has no line at all. *)
Fixpoint splitlines (s : string) : list string :=
  match s with
  | EmptyString => []
  | String c r =>
      if is_linebreak c then
        match c, r with
        | "013"%char, String "010"%char r' => EmptyString :: splitlines r'
        | _, _ => EmptyString :: splitlines r
        end
      else
        match splitlines r with
        | [] => [String c EmptyString]
        | l :: ls => String c l :: ls
        end
  end.

(** [s.split(sep)] for a one-character separator: empty fields are kept and
    the result is never empty. *)
Fixpoint split_sep (sep : ascii) (s : string) : list string :=
  match s with
  | EmptyString => [EmptyString]
  | String c r =>
      if Ascii.eqb c sep then EmptyString :: split_sep sep r
      else match split_sep sep r with
           | [] => [String c EmptyString]
           | f :: fs => String c f :: fs
           end
  end.

(** [s.split()]: fields are the maximal runs of non-whitespace. *)
Fixpoint split (s : string) : list string :=
  match s with
  | EmptyString => []
  | String c r =>
      if is_space c then split r
      else match r with
           | EmptyString => [String c EmptyString]
           | String c' _ =>
               if is_space c' then String c EmptyString :: split r
               else match split r with
                    | [] => [String c EmptyString]
                    | f :: fs => String c f :: fs
                    end
           end
  end.

End PyStr.

(** ** Exceptions and the error monad *)

Inductive exn : Type :=
| ValueError (msg : string)
| IndexError
| TypeError
| RequestException (msg : string).   (* requests.get / raise_for_status *)

Definition exn_eqb (a b : exn) : bool :=
  match a, b with
  | ValueError m, ValueError m' => String.eqb m m'
  | IndexError, IndexError => true
  | TypeError, TypeError => true
  | RequestException m, RequestException m' => String.eqb m m'
  | _, _ => false
  end.

Module Exc.

Definition t (A : Type) : Type := (exn + A)%type.
Definition ret {A} (a : A) : t A := inr a.
Definition raise {A} (e : exn) : t A := inl e.
Definition bind {A B} (m : t A) (k : A -> t B) : t B :=
  match m with
  | inl e => inl e
  | inr a => k a
  end.

(** [xs[i]] *)
Definition index {A} (xs : list A) (i : nat) : t A :=
  match nth_error xs i with
  | Some x => ret x
  | None => raise IndexError
  end.

End Exc.

(** ** Python [float]: decimal conversion and comparison *)

Module PyFloat.

Definition prec : Z := 53.
Definition emax : Z := 1024.

Definition float : Type := spec_float.

(** The binary64 nearest to [m * 10^e] (ties to even), the conversion that
    both source literals and [float(str)] perform.  The quotient of the two
    integers is rounded once, by [SFdiv]. *)
Definition of_decimal (neg : bool) (m : Z) (e : Z) : float :=
  match m with
  | Zpos p =>
      let num := Z.to_pos (Zpos p * 10 ^ Z.max e 0) in
      let den := Z.to_pos (10 ^ Z.max (- e) 0) in
      SFdiv prec emax (S754_finite neg num 0) (S754_finite false den 0)
  | _ => S754_zero neg
  end.

(** Reading a run of decimal digits: value, count, rest. *)
Fixpoint digits (acc : Z) (n : Z) (s : string) : Z * Z * string :=
  match s with
  | String c r =>
      if PyStr.is_digit c then digits (10 * acc + PyStr.digit_val c) (n + 1) r
      else (acc, n, s)
  | EmptyString => (acc, n, s)
  end.

Definition sign (s : string) : bool * string :=
  match s with
  | String "-"%char r => (true, r)
  | String "+"%char r => (false, r)
  | _ => (false, s)
  end.

(** Underscores may only sit between two digits; they are removed before
    the number is read. *)
Fixpoint drop_underscores (prev : ascii) (s : string) : option string :=
  match s with
  | EmptyString =>
      if Ascii.eqb prev "_"%char then None else Some EmptyString
  | String c r =>
      if Ascii.eqb c "_"%char then
        if PyStr.is_digit prev then drop_underscores c r else None
      else if Ascii.eqb prev "_"%char && negb (PyStr.is_digit c) then None
      else option_map (String c) (drop_underscores c r)
  end.

Definition exponent (s : string) : option (Z * string) :=
  match s with
  | String c r =>
      if Ascii.eqb c "e"%char || Ascii.eqb c "E"%char then
        let '(neg, r1) := sign r in
        let '(v, n, r2) := digits 0 0 r1 in
        if n =? 0 then None else Some (if neg then - v else v, r2)
      else None
  | EmptyString => None
  end.

(** The unsigned decimal grammar: digits, optional point and digits (at
    least one digit in all), optional exponent, nothing after. *)
Definition decimal (neg : bool) (s : string) : option float :=
  let '(ip, ni, r1) := digits 0 0 s in
  let '(m, nf, r2) :=
    match r1 with
    | String "."%char r => let '(v, n, r') := digits ip 0 r in (v, n, r')
    | _ => (ip, 0, r1)
    end in
  if ni + nf =? 0 then None
  else
    match r2 with
    | EmptyString => Some (of_decimal neg m (- nf))
    | _ =>
        match exponent r2 with
        | Some (e, EmptyString) => Some (of_decimal neg m (e - nf))
        | _ => None
        end
    end.

Definition parse (s : string) : option float :=
  match drop_underscores "000"%char (PyStr.strip_with PyStr.is_float_space s) with
  | None => None
  | Some t =>
      let '(neg, body) := sign t in
      let l := PyStr.lower body in
      if String.eqb l "inf" || String.eqb l "infinity" then
        Some (S754_infinity neg)
      else if String.eqb l "nan" then Some S754_nan
      else decimal neg body
  end.

(** A float literal of the source text. *)
Definition lit (s : string) : float :=
  match parse s with
  | Some f => f
  | None => S754_nan
  end.

End PyFloat.

(** [float(s)] for a [str] argument. *)
Definition py_float (s : string) : Exc.t PyFloat.float :=
  match PyFloat.parse s with
  | Some f => Exc.ret f
  | None => Exc.raise (ValueError "could not convert string to float")
  end.

(** ** Python values *)

#[warnings="-register-all"]
Inductive pyval : Type :=
| PyNone
| PyBool (b : bool)
| PyInt (z : Z)
| PyFloat (f : PyFloat.float)
| PyStr (s : string)
| PyDict (keys values : list pyval).

(** [PyDict] is the unhashable, unordered kind of value.  A list or a set
    takes the same path as a dict through every operation that the
    function applies to its arguments: the type test fails, a comparison
    with a number raises [TypeError], and so does membership in a set. *)

Inductive pytype : Type := NoneType | bool_t | int_t | float_t | str_t | dict_t.

(** [type(v)]: the exact class, so [type(True)] is [bool], not [int]. *)
Definition type_of (v : pyval) : pytype :=
  match v with
  | PyNone => NoneType
  | PyBool _ => bool_t
  | PyInt _ => int_t
  | PyFloat _ => float_t
  | PyStr _ => str_t
  | PyDict _ _ => dict_t
  end.

Definition pytype_eqb (a b : pytype) : bool :=
  match a, b with
  | NoneType, NoneType | bool_t, bool_t | int_t, int_t
  | float_t, float_t | str_t, str_t | dict_t, dict_t => true
  | _, _ => false
  end.

(** [t in {...}] for a set of classes *)
Definition type_in (t : pytype) (ts : list pytype) : bool :=
  existsb (pytype_eqb t) ts.

(** ** Exact comparison of Python numbers

    [int], [bool] and [float] operands are compared by value; Python
    compares an [int] with a [float] exactly, without converting the
    integer.  A finite number is kept as [m * 2^e]. *)

Module Num.

Inductive t : Type :=
| NaN
| Inf (neg : bool)
| Fin (m e : Z).

Definition of_float (f : PyFloat.float) : t :=
  match f with
  | S754_zero _ => Fin 0 0
  | S754_infinity s => Inf s
  | S754_nan => NaN
  | S754_finite s m e => Fin (cond_Zopp s (Zpos m)) e
  end.

Definition of_Z (z : Z) : t := Fin z 0.

Definition compare_fin (m1 e1 m2 e2 : Z) : comparison :=
  let e := Z.min e1 e2 in
  Z.compare (m1 * 2 ^ (e1 - e)) (m2 * 2 ^ (e2 - e)).

(** [None] when the operands are unordered (one of them is NaN). *)
Definition compare (a b : t) : option comparison :=
  match a, b with
  | NaN, _ | _, NaN => None
  | Inf s1, Inf s2 =>
      Some (match s1, s2 with
            | true, false => Lt
            | false, true => Gt
            | _, _ => Eq
            end)
  | Inf s, Fin _ _ => Some (if s then Lt else Gt)
  | Fin _ _, Inf s => Some (if s then Gt else Lt)
  | Fin m1 e1, Fin m2 e2 => Some (compare_fin m1 e1 m2 e2)
  end.

Definition ltb (a b : t) : bool :=
  match compare a b with Some Lt => true | _ => false end.
Definition leb (a b : t) : bool :=
  match compare a b with Some Lt | Some Eq => true | _ => false end.
Definition gtb (a b : t) : bool :=
  match compare a b with Some Gt => true | _ => false end.

(** The rational value of a finite number. *)
Definition to_Q (m e : Z) : Q :=
  if 0 <=? e then Qmake (m * 2 ^ e) 1 else Qmake m (Z.to_pos (2 ^ (- e))).

End Num.

Definition to_num (v : pyval) : option Num.t :=
  match v with
  | PyBool b => Some (Num.of_Z (if b then 1 else 0))
  | PyInt z => Some (Num.of_Z z)
  | PyFloat f => Some (Num.of_float f)
  | PyNone | PyStr _ | PyDict _ _ => None
  end.

(** A rich comparison [a op b]: numbers by value, two strings
    lexicographically, anything else raises [TypeError]. *)
Definition py_compare (nop : Num.t -> Num.t -> bool)
    (sop : string -> string -> bool) (a b : pyval) : Exc.t bool :=
  match to_num a, to_num b with
  | Some x, Some y => Exc.ret (nop x y)
  | _, _ =>
      match a, b with
      | PyStr s, PyStr s' => Exc.ret (sop s s')
      | _, _ => Exc.raise TypeError
      end
  end.

Definition py_lt : pyval -> pyval -> Exc.t bool := py_compare Num.ltb String.ltb.
Definition py_le : pyval -> pyval -> Exc.t bool := py_compare Num.leb String.leb.
Definition py_gt : pyval -> pyval -> Exc.t bool :=
  py_compare Num.gtb (fun s s' => String.ltb s' s).

(** [x and y] on two comparisons: the second one is evaluated only when the
    first holds, as in the chained form [a op1 b op2 c]. *)
Definition py_and (x y : Exc.t bool) : Exc.t bool :=
  Exc.bind x (fun b => if b then y else Exc.ret false).

Definition py_not (x : Exc.t bool) : Exc.t bool :=
  Exc.bind x (fun b => Exc.ret (negb b)).

(** [v in {s1, s2, ...}] for a set of [str]: the value is hashed first,
    which raises [TypeError] for an unhashable one; then only an equal
    string is a member. *)
Definition py_in_strs (v : pyval) (ss : list string) : Exc.t bool :=
  match v with
  | PyStr s => Exc.ret (existsb (String.eqb s) ss)
  | PyDict _ _ => Exc.raise TypeError
  | PyNone | PyBool _ | PyInt _ | PyFloat _ => Exc.ret false
  end.


(** ** The HTTP client: requests and the log of requests made *)

Record request : Type := mkRequest {
  req_url : string;
  req_params : list (string * pyval)
}.

Record response : Type := mkResponse {
  status_code : Z;
  text : string
}.

Module IO.

(** A computation that may raise and that appends to the log of requests
    sent so far. *)
Definition t (A : Type) : Type := list request -> Exc.t A * list request.

Definition ret {A} (a : A) : t A := fun log => (inr a, log).
Definition raise {A} (e : exn) : t A := fun log => (inl e, log).
Definition bind {A B} (m : t A) (k : A -> t B) : t B :=
  fun log =>
    match m log with
    | (inl e, log') => (inl e, log')
    | (inr a, log') => k a log'
    end.
Definition lift {A} (m : Exc.t A) : t A := fun log => (m, log).

(** [if cond: raise e] *)
Definition raise_if (cond : Exc.t bool) (e : exn) : t unit :=
  bind (lift cond) (fun b => if b then raise e else ret tt).

End IO.

Declare Scope io_scope.
Delimit Scope io_scope with io.
Notation "x <- m ;; k" := (IO.bind m (fun x => k))
  (at level 61, m at next level, right associativity) : io_scope.
Notation "m ;; k" := (IO.bind m (fun _ => k))
  (at level 61, right associativity) : io_scope.

(** ** The messages of the errors raised, and the error kinds they form *)

Module Msg.
Definition ra_type := "RA must be in units of hours, and a float or integer (e.g. 4.50, not 04:30:00)".
Definition dec_type := "Dec must be in units of degrees, and a float or integer (e.g. -69.50, not -69:30:00)".
Definition lmc_units := "RA must be in units of hours, not degrees (e.g. 5.20 (hours), not 78.0 (degrees))".
Definition lmc_ra := "For LMC, RA must be between 4.48 and 6.27 hours.".
Definition lmc_dec := "For LMC, Dec must be between -72.5 and -65.2 degrees.".
Definition smc_units := "RA must be in units of hours, not degrees (e.g. 0.75 (hours), not 11.25 (degrees))".
Definition smc_ra := "For SMC, RA must be between 0.375 and 1.375 hours.".
Definition smc_dec := "For SMC, Dec must be between -74.9 and -70.4 degrees.".
Definition galaxy := "Galaxy must be 'LMC' or 'SMC'.".
Definition radius := "Radius must be greater than 0 and no more than 12 arcminutes.".
Definition teff := "teff must be 'all', 'cool', or 'hot'.".
Definition no_stars := "No stars found within the given radius. Try increasing the radius.".
End Msg.

Definition InvalidGalaxy : exn := ValueError Msg.galaxy.
Definition InvalidRadius : exn := ValueError Msg.radius.
Definition InvalidTeff : exn := ValueError Msg.teff.
Definition NoStarsFound : exn := ValueError Msg.no_stars.

Definition is_InvalidCoordinateType (e : exn) : bool :=
  exn_eqb e (ValueError Msg.ra_type) || exn_eqb e (ValueError Msg.dec_type).

Definition is_CoordinateUnitMismatch (e : exn) : bool :=
  exn_eqb e (ValueError Msg.lmc_units) || exn_eqb e (ValueError Msg.smc_units).

Definition is_CoordinateOutOfRange (e : exn) : bool :=
  exn_eqb e (ValueError Msg.lmc_ra) || exn_eqb e (ValueError Msg.lmc_dec)
  || exn_eqb e (ValueError Msg.smc_ra) || exn_eqb e (ValueError Msg.smc_dec).

(** ** The scan of the response text (lines 82-96) *)

Definition AV_MARKER : string := "<Av> =".
Definition SD_MARKER : string := "Standard deviation of extinction values =".

(** [float(line.split('=')[1].split()[0])] *)
Definition parse_value (line : string) : Exc.t PyFloat.float :=
  Exc.bind (Exc.index (PyStr.split_sep "="%char line) 1) (fun seg =>
  Exc.bind (Exc.index (PyStr.split seg) 0) (fun tok =>
  py_float tok)).

(** [except (ValueError, IndexError)] *)
Definition caught (e : exn) : bool :=
  match e with
  | ValueError _ | IndexError => true
  | _ => false
  end.

Definition scan_state : Type := (option PyFloat.float * option PyFloat.float)%type.

(** One iteration of the loop body on the state [(mean_av, stdev_av)]. *)
Definition scan_line (st : scan_state) (line : string) : Exc.t scan_state :=
  let line := PyStr.strip line in
  if PyStr.contains AV_MARKER line then
    match parse_value line with
    | inr v => Exc.ret (Some v, snd st)
    | inl e => if caught e then Exc.ret st else Exc.raise e
    end
  else if PyStr.contains SD_MARKER line then
    match parse_value line with
    | inr v => Exc.ret (fst st, Some v)
    | inl e => if caught e then Exc.ret st else Exc.raise e
    end
  else Exc.ret st.

Fixpoint scan (lines : list string) (st : scan_state) : Exc.t scan_state :=
  match lines with
  | [] => Exc.ret st
  | line :: rest => Exc.bind (scan_line st line) (scan rest)
  end.

(** ** [get_extinction] *)

Definition LMC_URL := "https://www.as.arizona.edu/~dennis/cgi-bin/lmcext.cgi".
Definition SMC_URL := "https://www.as.arizona.edu/~dennis/cgi-bin/smcext.cgi".

Definition flt (s : string) : pyval := PyFloat (PyFloat.lit s).
Definition neg_flt (s : string) : pyval := PyFloat (SFopp (PyFloat.lit s)).

Section GetExtinction.

(** The remote service, as [requests.get] sees it: a request is answered
    by a response, or the call raises a [RequestException] (connection
    error, timeout, ...) with some message. *)
Variable server : request -> string + response.

(** [BeautifulSoup(body, 'html.parser').get_text()] *)
Variable get_text : string -> string.

Definition requests_get (url : string) (params : list (string * pyval))
  : IO.t response :=
  fun log =>
    let r := mkRequest url params in
    (match server r with
     | inl msg => Exc.raise (RequestException msg)
     | inr resp => Exc.ret resp
     end, (log ++ [r])%list).

(** [response.raise_for_status()] *)
Definition raise_for_status (r : response) : IO.t unit :=
  if (400 <=? status_code r) && (status_code r <? 600)
  then IO.raise (RequestException "HTTPError")
  else IO.ret tt.

Local Open Scope io_scope.

Definition get_extinction (galaxy : string) (ra dec radius teff : pyval)
  : IO.t (PyFloat.float * PyFloat.float) :=
  let galaxy := PyStr.upper galaxy in
  IO.raise_if (Exc.ret (negb (type_in (type_of ra) [float_t; int_t])))
    (ValueError Msg.ra_type) ;;
  IO.raise_if (Exc.ret (negb (type_in (type_of dec) [float_t; int_t])))
    (ValueError Msg.dec_type) ;;
  base_url <-
    (if String.eqb galaxy "LMC" then
       IO.raise_if (py_gt ra (flt "7.0")) (ValueError Msg.lmc_units) ;;
       IO.raise_if (py_not (py_and (py_le (flt "4.48") ra) (py_le ra (flt "6.27"))))
         (ValueError Msg.lmc_ra) ;;
       IO.raise_if
         (py_not (py_and (py_le (neg_flt "72.5") dec) (py_le dec (neg_flt "65.2"))))
         (ValueError Msg.lmc_dec) ;;
       IO.ret LMC_URL
     else if String.eqb galaxy "SMC" then
       IO.raise_if (py_gt ra (flt "6.0")) (ValueError Msg.smc_units) ;;
       IO.raise_if (py_not (py_and (py_le (flt "0.375") ra) (py_le ra (flt "1.375"))))
         (ValueError Msg.smc_ra) ;;
       IO.raise_if
         (py_not (py_and (py_le (neg_flt "74.9") dec) (py_le dec (neg_flt "70.4"))))
         (ValueError Msg.smc_dec) ;;
       IO.ret SMC_URL
     else IO.raise (ValueError Msg.galaxy)) ;;
  IO.raise_if (py_not (py_and (py_lt (PyInt 0) radius) (py_le radius (PyInt 12))))
    (ValueError Msg.radius) ;;
  IO.raise_if (py_not (py_in_strs teff ["all"; "cool"; "hot"]))
    (ValueError Msg.teff) ;;
  let params :=
    [("ra", ra); ("dec", dec); ("searchrad", radius); ("teff", teff)] in
  response <- requests_get base_url params ;;
  raise_for_status response ;;
  let soup_text := get_text (text response) in
  st <- IO.lift (scan (PyStr.splitlines soup_text) (None, None)) ;;
  match st with
  | (Some mean_av, Some stdev_av) => IO.ret (mean_av, stdev_av)
  | _ => IO.raise (ValueError Msg.no_stars)
  end.

End GetExtinction.

(** ** The validation stage, check by check

    The checks of lines 38-68 in the order in which the function reaches
    them.  Each one tells whether it is violated and, if so, with which
    error. *)

Inductive galaxy_t : Type := LMC | SMC.

(** The galaxy a string normalizes to. *)
Definition normalize (galaxy : string) : option galaxy_t :=
  let g := PyStr.upper galaxy in
  if String.eqb g "LMC" then Some LMC
  else if String.eqb g "SMC" then Some SMC
  else None.

(** Case-insensitive equality of two ASCII strings. *)
Definition caseless_eq (a b : string) : Prop := PyStr.lower a = PyStr.lower b.

Record footprint : Type := mkFootprint {
  endpoint : string;
  units_limit : pyval;
  ra_lo : pyval; ra_hi : pyval;
  dec_lo : pyval; dec_hi : pyval;
  units_msg : string; ra_msg : string; dec_msg : string
}.

Definition survey (g : galaxy_t) : footprint :=
  match g with
  | LMC => mkFootprint LMC_URL (flt "7.0")
             (flt "4.48") (flt "6.27") (neg_flt "72.5") (neg_flt "65.2")
             Msg.lmc_units Msg.lmc_ra Msg.lmc_dec
  | SMC => mkFootprint SMC_URL (flt "6.0")
             (flt "0.375") (flt "1.375") (neg_flt "74.9") (neg_flt "70.4")
             Msg.smc_units Msg.smc_ra Msg.smc_dec
  end.

Record args : Type := mkArgs {
  a_galaxy : string;
  a_ra : pyval;
  a_dec : pyval;
  a_radius : pyval;
  a_teff : pyval
}.

(** [lo <= x <= hi] *)
Definition between (lo x hi : pyval) : Exc.t bool :=
  py_and (py_le lo x) (py_le x hi).

(** The outcome of [if cond: raise e] seen as a check. *)
Definition violated (cond : Exc.t bool) (e : exn) : option exn :=
  match cond with
  | inl err => Some err
  | inr true => Some e
  | inr false => None
  end.

Definition is_float_or_int (v : pyval) : bool :=
  type_in (type_of v) [float_t; int_t].

Definition check_ra_type (q : args) : option exn :=
  violated (Exc.ret (negb (is_float_or_int (a_ra q)))) (ValueError Msg.ra_type).

Definition check_dec_type (q : args) : option exn :=
  violated (Exc.ret (negb (is_float_or_int (a_dec q)))) (ValueError Msg.dec_type).

Definition check_galaxy (q : args) : option exn :=
  match normalize (a_galaxy q) with
  | Some _ => None
  | None => Some InvalidGalaxy
  end.

(** The three coordinate checks belong to a recognised galaxy. *)
Definition check_units (q : args) : option exn :=
  match normalize (a_galaxy q) with
  | Some g =>
      violated (py_gt (a_ra q) (units_limit (survey g)))
        (ValueError (units_msg (survey g)))
  | None => None
  end.

Definition check_ra_bounds (q : args) : option exn :=
  match normalize (a_galaxy q) with
  | Some g =>
      violated (py_not (between (ra_lo (survey g)) (a_ra q) (ra_hi (survey g))))
        (ValueError (ra_msg (survey g)))
  | None => None
  end.

Definition check_dec_bounds (q : args) : option exn :=
  match normalize (a_galaxy q) with
  | Some g =>
      violated (py_not (between (dec_lo (survey g)) (a_dec q) (dec_hi (survey g))))
        (ValueError (dec_msg (survey g)))
  | None => None
  end.

Definition check_radius (q : args) : option exn :=
  violated
    (py_not (py_and (py_lt (PyInt 0) (a_radius q)) (py_le (a_radius q) (PyInt 12))))
    InvalidRadius.

Definition check_teff (q : args) : option exn :=
  violated (py_not (py_in_strs (a_teff q) ["all"; "cool"; "hot"]))
    InvalidTeff.

Definition coordinate_checks : list (args -> option exn) :=
  [check_ra_type; check_dec_type; check_galaxy;
   check_units; check_ra_bounds; check_dec_bounds].

Definition checks : list (args -> option exn) :=
  (coordinate_checks ++ [check_radius; check_teff])%list.

(** The error of the earliest violated check of a list. *)
Fixpoint first_violation (cs : list (args -> option exn)) (q : args)
  : option exn :=
  match cs with
  | [] => None
  | c :: cs' =>
      match c q with
      | Some e => Some e
      | None => first_violation cs' q
      end
  end.

(** The request that a valid query sends. *)
Definition request_of (g : galaxy_t) (q : args) : request :=
  mkRequest (endpoint (survey g))
    [("ra", a_ra q); ("dec", a_dec q);
     ("searchrad", a_radius q); ("teff", a_teff q)].

(** What lines 98-101 make of the final loop state. *)
Definition result_of (st : scan_state) : Exc.t (PyFloat.float * PyFloat.float) :=
  match st with
  | (Some mean_av, Some stdev_av) => Exc.ret (mean_av, stdev_av)
  | _ => Exc.raise NoStarsFound
  end.

(** The status codes on which [raise_for_status] does not raise. *)
Definition status_ok (r : response) : bool :=
  negb ((400 <=? status_code r) && (status_code r <? 600)).

(** ** The value a line contributes to the scan *)

Definition line_value (line : string) : option PyFloat.float :=
  match parse_value (PyStr.strip line) with
  | inr v => Some v
  | inl _ => None
  end.

(** A line sets the mean when it bears the first marker and its value
    parses; it sets the deviation when it bears the second marker, not the
    first, and its value parses. *)
Definition mean_of (line : string) : option PyFloat.float :=
  if PyStr.contains AV_MARKER (PyStr.strip line) then line_value line else None.

Definition stdev_of (line : string) : option PyFloat.float :=
  if PyStr.contains AV_MARKER (PyStr.strip line) then None
  else if PyStr.contains SD_MARKER (PyStr.strip line) then line_value line
  else None.

(** The last value that [f] finds along the lines, [init] if none. *)
Fixpoint last_value {A} (f : string -> option A) (lines : list string)
    (init : option A) : option A :=
  match lines with
  | [] => init
  | l :: rest =>
      last_value f rest (match f l with Some v => Some v | None => init end)
  end.

Definition keep {A} (new old : option A) : option A :=
  match new with
  | Some v => Some v
  | None => old
  end.

(** [0 < r <= 12] on a number *)
Definition radius_in_range (r : Num.t) : bool :=
  Num.ltb (Num.of_Z 0) r && Num.leb r (Num.of_Z 12).

(** The position lies in the rectangle of the galaxy. *)
Definition in_footprint (g : galaxy_t) (ra dec : pyval) : Prop :=
  between (ra_lo (survey g)) ra (ra_hi (survey g)) = inr true /\
  between (dec_lo (survey g)) dec (dec_hi (survey g)) = inr true.

(** [f] is a canonical binary64 within half a unit in the last place of
    the rational [n/d]. *)
Definition nearest_to (f : PyFloat.float) (n d : Z) : bool :=
  match f with
  | S754_finite s m e =>
      valid_binary PyFloat.prec PyFloat.emax f &&
      Qle_bool (2 * Qabs (Num.to_Q (cond_Zopp s (Zpos m)) e - (n # Z.to_pos d)))
               (Num.to_Q 1 e)
  | _ => false
  end.

(** ** What follows the request *)

(** What the call makes of the answer to its request (lines 78-101). *)
Definition outcome (get_text : string -> string) (answer : string + response)
  : Exc.t (PyFloat.float * PyFloat.float) :=
  match answer with
  | inl msg => Exc.raise (RequestException msg)
  | inr resp =>
      if status_ok resp then
        let lines := PyStr.splitlines (get_text (text resp)) in
        result_of (last_value mean_of lines None, last_value stdev_of lines None)
      else Exc.raise (RequestException "HTTPError")
  end.

(** ** Runs that reach the scan *)

(** The query is valid, the service answers it with [resp], and
    [raise_for_status] accepts the answer. *)
Definition answered (server : request -> string + response) (q : args)
    (resp : response) : Prop :=
  first_violation checks q = None /\
  (forall g, normalize (a_galaxy q) = Some g ->
             server (request_of g q) = inr resp) /\
  status_ok resp = true.

(** ** Which token of a line is read *)

(** The text after the first occurrence of [c], if there is one. *)
Fixpoint after_first (c : ascii) (s : string) : option string :=
  match s with
  | EmptyString => None
  | String a r => if Ascii.eqb a c then Some r else after_first c r
  end.

(** The text before the first occurrence of [c], all of it if there is
    none. *)
Fixpoint before_first (c : ascii) (s : string) : string :=
  match s with
  | EmptyString => EmptyString
  | String a r => if Ascii.eqb a c then EmptyString else String a (before_first c r)
  end.

(** The leading run of non-whitespace. *)
Fixpoint token (s : string) : string :=
  match s with
  | EmptyString => EmptyString
  | String a r => if PyStr.is_space a then EmptyString else String a (token r)
  end.

(** The first whitespace-delimited token of a text. *)
Definition first_token (s : string) : option string :=
  match PyStr.lstrip s with
  | EmptyString => None
  | t => Some (token t)
  end.

(** The token that the wording "the first whitespace-delimited token after
    the first ['=']" designates, and the value read from it. *)
Definition token_after_first_eq (line : string) : option string :=
  match after_first "="%char line with
  | Some rest => first_token rest
  | None => None
  end.

Definition value_after_first_eq (line : string) : Exc.t PyFloat.float :=
  match token_after_first_eq line with
  | Some tok => py_float tok
  | None => Exc.raise IndexError
  end.

(** ** Sample data for concrete runs *)

Module Mock.

Definition nl : string := String "010"%char EmptyString.

(** A service that answers every request with status 200 and [body]. *)
Definition serve (body : string) : request -> string + response :=
  fun _ => inr (mkResponse 200 body).

(** The parser on a page whose visible text is [t]. *)
Definition extracts (t : string) : string -> string := fun _ => t.

Definition av_045 := "<Av> = 0.45 (something)".
Definition av_099 := "<Av> = 0.99 (something)".
Definition sd_012 := "Standard deviation of extinction values = 0.12 mag".
Definition sd_030 := "Standard deviation of extinction values = 0.30 mag".

(** The sample answer, and the same answer with one more line. *)
Definition sample : string := av_045 ++ nl ++ sd_012 ++ nl.
Definition sample_then_099 : string := av_045 ++ nl ++ sd_012 ++ nl ++ av_099 ++ nl.
Definition two_of_each : string :=
  av_045 ++ nl ++ sd_012 ++ nl ++ av_099 ++ nl ++ sd_030 ++ nl.
Definition no_marker : string := "No stars in the search region." ++ nl.

(** A valid query: LMC, ra = 5.20 h, dec = -69.50 deg, radius 10', all. *)
Definition run (text : string) :=
  get_extinction (serve text) (extracts text)
    "LMC" (flt "5.20") (neg_flt "69.50") (PyInt 10) (PyStr "all") [].

Definition query : args :=
  mkArgs "LMC" (flt "5.20") (neg_flt "69.50") (PyInt 10) (PyStr "all").

End Mock.

(** ** The queries that are accepted *)

(** Every constraint of lines 38-68 at once: a recognised galaxy, float or
    int coordinates inside its rectangle, a number in (0, 12] for the
    radius and one of the three strings for teff. *)
Definition acceptable (galaxy : string) (ra dec radius teff : pyval) : Prop :=
  exists g r s,
    normalize galaxy = Some g /\
    is_float_or_int ra = true /\ is_float_or_int dec = true /\
    in_footprint g ra dec /\
    to_num radius = Some r /\ radius_in_range r = true /\
    teff = PyStr s /\ In s ["all"; "cool"; "hot"].

(** The value is a finite number. *)
Definition finite (v : pyval) : Prop :=
  exists m e, to_num v = Some (Num.Fin m e).

(** ** The script (lines 105-129) *)

(** The namespace of [parser.parse_args()]: [--ra], [--dec] and [--radius]
    are declared with [type=float], the two others are strings. *)
Record Namespace : Type := mkNamespace {
  ns_galaxy : string;
  ns_ra : PyFloat.float;
  ns_dec : PyFloat.float;
  ns_radius : PyFloat.float;
  ns_teff : string
}.

(** The [choices] of [--galaxy] and [--teff]. *)
Definition GALAXY_CHOICES : list string := ["LMC"; "SMC"].
Definition TEFF_CHOICES : list string := ["all"; "cool"; "hot"].

(** What the parser guarantees of a namespace it returns. *)
Definition parsed (ns : Namespace) : Prop :=
  In (ns_galaxy ns) GALAXY_CHOICES /\ In (ns_teff ns) TEFF_CHOICES.

(** The arguments that the script passes on. *)
Definition query_of (ns : Namespace) : args :=
  mkArgs (ns_galaxy ns) (PyFloat (ns_ra ns)) (PyFloat (ns_dec ns))
    (PyFloat (ns_radius ns)) (PyStr (ns_teff ns)).

(** What a run of the script leaves: the lines printed, and the exception
    that ended it if one was not caught. *)
Record script_run : Type := mkScriptRun {
  stdout : list string;
  uncaught : option exn
}.

Section Script.

Variable server : request -> string + response.
Variable get_text : string -> string.

(** How an f-string field prints a float ([format(x, '')]). *)
Variable float_str : PyFloat.float -> string.

(** [str(e)] of the request exception that the model tags with a message. *)
Variable request_str : string -> string.

(** The [try] statement of lines 117-129. *)
Definition main (args : Namespace) : list request -> script_run * list request :=
  fun log =>
    match get_extinction server get_text
            (ns_galaxy args) (PyFloat (ns_ra args)) (PyFloat (ns_dec args))
            (PyFloat (ns_radius args)) (PyStr (ns_teff args)) log with
    | (inr (mean_av, stdev_av), log') =>
        (mkScriptRun
           ["Mean Av: " ++ float_str mean_av ++ " mag, Standard deviation: "
              ++ float_str stdev_av ++ " mag"] None, log')
    | (inl (ValueError e), log') =>
        (mkScriptRun ["Input error: " ++ e] None, log')
    | (inl (RequestException e), log') =>
        (mkScriptRun ["Request error: " ++ request_str e] None, log')
    | (inl e, log') => (mkScriptRun [] (Some e), log')
    end.

End Script.

(** Sample data for runs of the script *)

Module MockScript.

(** [--galaxy LMC --ra 5.20 --dec -69.50 --radius 10] *)
Definition ns : Namespace :=
  mkNamespace "LMC" (PyFloat.lit "5.20") (SFopp (PyFloat.lit "69.50"))
    (PyFloat.lit "10") "all".

(** The same with [--ra 78.0]. *)
Definition ns_degrees : Namespace :=
  mkNamespace "LMC" (PyFloat.lit "78.0") (SFopp (PyFloat.lit "69.50"))
    (PyFloat.lit "10") "all".

(** Stand-ins for the two formatting functions. *)
Definition show : PyFloat.float -> string := fun _ => "<float>".
Definition describe : string -> string := fun msg => msg.

(** A line that bears both markers. *)
Definition both_markers : string :=
  "<Av> = 0.45 Standard deviation of extinction values = 0.12".

End MockScript.

(** ** Lemmas on the order of numbers *)

Module NumFacts.

(** Comparing at any common exponent below both gives the same answer. *)
Lemma compare_fin_scale m1 e1 m2 e2 e :
  e <= e1 -> e <= e2 ->
  Num.compare_fin m1 e1 m2 e2 = (m1 * 2 ^ (e1 - e) ?= m2 * 2 ^ (e2 - e)).
Proof.
  intros H1 H2. unfold Num.compare_fin.
  set (e0 := Z.min e1 e2).
  assert (He0 : e <= e0) by (unfold e0; lia).
  replace (e1 - e) with ((e1 - e0) + (e0 - e)) by lia.
  replace (e2 - e) with ((e2 - e0) + (e0 - e)) by lia.
  rewrite !Z.pow_add_r by (unfold e0; lia).
  rewrite !Z.mul_assoc.
  apply Zmult_compare_compat_r.
  apply Z.lt_gt, Z.pow_pos_nonneg; lia.
Qed.

(** The comparison is the comparison of the rational values. *)
Lemma compare_fin_Q m1 e1 m2 e2 :
  Num.compare_fin m1 e1 m2 e2 = (Num.to_Q m1 e1 ?= Num.to_Q m2 e2)%Q.
Proof.
  assert (P : forall k, 0 <= k -> Zpos (Z.to_pos (2 ^ k)) = 2 ^ k).
  { intros k Hk. apply Z2Pos.id. apply Z.pow_pos_nonneg; lia. }
  unfold Num.to_Q, Qcompare.
  destruct (Z.leb_spec 0 e1) as [H1|H1], (Z.leb_spec 0 e2) as [H2|H2];
    cbn [Qnum Qden]; rewrite ?P by lia.
  - rewrite (compare_fin_scale m1 e1 m2 e2 0) by lia.
    rewrite !Z.sub_0_r. f_equal; ring.
  - rewrite (compare_fin_scale m1 e1 m2 e2 e2) by lia.
    rewrite Z.sub_diag, Z.pow_0_r.
    replace (e1 - e2) with (e1 + - e2) by lia.
    rewrite Z.pow_add_r by lia. f_equal; ring.
  - rewrite (compare_fin_scale m1 e1 m2 e2 e1) by lia.
    rewrite Z.sub_diag, Z.pow_0_r.
    replace (e2 - e1) with (e2 + - e1) by lia.
    rewrite Z.pow_add_r by lia. f_equal; ring.
  - rewrite (compare_fin_scale m1 e1 m2 e2 (e1 + e2)) by lia.
    replace (e1 - (e1 + e2)) with (- e2) by lia.
    replace (e2 - (e1 + e2)) with (- e1) by lia.
    reflexivity.
Qed.

Lemma leb_gtb_trans x a b :
  Num.leb x b = true -> Num.gtb x a = true -> Num.gtb b a = true.
Proof.
  unfold Num.leb, Num.gtb.
  destruct x as [|sx|mx ex], a as [|sa|ma ea], b as [|sb|mb eb];
    cbn [Num.compare];
    try (repeat match goal with s : bool |- _ => destruct s end;
         intros; (reflexivity || congruence)).
  set (e := Z.min ex (Z.min ea eb)).
  rewrite (compare_fin_scale mx ex mb eb e), (compare_fin_scale mx ex ma ea e),
    (compare_fin_scale mb eb ma ea e) by (unfold e; lia).
  destruct (Z.compare_spec (mx * 2 ^ (ex - e)) (mb * 2 ^ (eb - e)));
    destruct (Z.compare_spec (mx * 2 ^ (ex - e)) (ma * 2 ^ (ea - e)));
    destruct (Z.compare_spec (mb * 2 ^ (eb - e)) (ma * 2 ^ (ea - e)));
    intros; try discriminate; try reflexivity; lia.
Qed.

(** On a finite number, [lo < x <= hi] for integer bounds is the same
    statement about the rational value. *)
Lemma ltb_leb_Q lo hi m e :
  Num.ltb (Num.of_Z lo) (Num.Fin m e) && Num.leb (Num.Fin m e) (Num.of_Z hi)
    = true <->
  (inject_Z lo < Num.to_Q m e /\ Num.to_Q m e <= inject_Z hi)%Q.
Proof.
  unfold Num.ltb, Num.leb, Num.of_Z; cbn [Num.compare].
  rewrite !compare_fin_Q.
  assert (T : forall z, Num.to_Q z 0 = inject_Z z).
  { intros z. unfold Num.to_Q, inject_Z; cbn. now rewrite Z.mul_1_r. }
  rewrite !T, andb_true_iff.
  rewrite Qlt_alt, Qle_alt.
  destruct (inject_Z lo ?= Num.to_Q m e)%Q, (Num.to_Q m e ?= inject_Z hi)%Q;
    split; intros [A B]; try discriminate; try (split; congruence);
    try (exfalso; apply B; reflexivity).
Qed.

(** The literals of the source and of the sample answer denote the
    binary64 nearest to their decimal value. *)
Lemma literals_nearest :
  forallb (fun '(s, n, d) => nearest_to (PyFloat.lit s) n d)
    [("7.0", 7, 1); ("4.48", 448, 100); ("6.27", 627, 100);
     ("72.5", 725, 10); ("65.2", 652, 10); ("6.0", 6, 1);
     ("0.375", 375, 1000); ("1.375", 1375, 1000);
     ("74.9", 749, 10); ("70.4", 704, 10);
     ("0.45", 45, 100); ("0.12", 12, 100); ("12.01", 1201, 100);
     ("78.0", 78, 1); ("5.20", 520, 100); ("69.50", 6950, 100);
     ("80.0", 80, 1)] = true.
Proof. vm_compute. reflexivity. Qed.

End NumFacts.

(** ** Lemmas on the scan *)

Lemma parse_value_caught line e :
  parse_value line = inl e -> caught e = true.
Proof.
  unfold parse_value, Exc.bind, Exc.index, py_float, Exc.raise, Exc.ret.
  unfold parse_value, Exc.bind, Exc.index, py_float.
  destruct (nth_error (PyStr.split_sep "="%char line) 1) as [seg|];
    [|intros [= <-]; reflexivity].
  destruct (nth_error (PyStr.split seg) 0) as [tok|];
    [|intros [= <-]; reflexivity].
  destruct (PyFloat.parse tok); [discriminate|intros [= <-]; reflexivity].
Qed.

Lemma scan_line_spec st line :
  scan_line st line =
    inr (keep (mean_of line) (fst st), keep (stdev_of line) (snd st)).
Proof.
  unfold scan_line, mean_of, stdev_of, line_value.
  destruct st as [m s]; cbn [fst snd].
  destruct (PyStr.contains AV_MARKER (PyStr.strip line)).
  - destruct (parse_value (PyStr.strip line)) as [e|v] eqn:E; cbn [keep].
    + now rewrite (parse_value_caught _ _ E).
    + reflexivity.
  - destruct (PyStr.contains SD_MARKER (PyStr.strip line)); [|reflexivity].
    destruct (parse_value (PyStr.strip line)) as [e|v] eqn:E; cbn [keep].
    + now rewrite (parse_value_caught _ _ E).
    + reflexivity.
Qed.

Lemma last_value_keep {A} (f : string -> option A) lines init :
  last_value f lines init = keep (last_value f lines None) init.
Proof.
  revert init; induction lines as [|l rest IH]; intros init; cbn.
  - reflexivity.
  - rewrite IH, (IH (match f l with Some v => Some v | None => None end)).
    destruct (last_value f rest None); [reflexivity|].
    destruct (f l); reflexivity.
Qed.

(** The loop never raises, and each field ends as the last value found for
    it. *)
Lemma scan_spec lines m s :
  scan lines (m, s) =
    inr (last_value mean_of lines m, last_value stdev_of lines s).
Proof.
  revert m s; induction lines as [|l rest IH]; intros m s; cbn [scan last_value].
  - reflexivity.
  - rewrite scan_line_spec; cbn [Exc.bind fst snd]. rewrite IH.
    unfold keep. reflexivity.
Qed.

Lemma last_value_none {A} (f : string -> option A) lines init :
  (forall l, In l lines -> f l = None) -> last_value f lines init = init.
Proof.
  revert init; induction lines as [|l rest IH]; intros init H; cbn.
  - reflexivity.
  - rewrite (H l (or_introl eq_refl)). apply IH.
    intros l' Hl'; apply H; now right.
Qed.

Lemma last_value_last {A} (f : string -> option A) pre l post v init :
  f l = Some v ->
  (forall l', In l' post -> f l' = None) ->
  last_value f (pre ++ l :: post)%list init = Some v.
Proof.
  revert init; induction pre as [|p pre IH]; intros init Hl Hpost; cbn.
  - rewrite Hl. now apply last_value_none.
  - now apply IH.
Qed.

Lemma last_value_found {A} (f : string -> option A) lines v :
  last_value f lines None = Some v ->
  exists pre l post,
    lines = (pre ++ l :: post)%list /\ f l = Some v /\
    (forall l', In l' post -> f l' = None).
Proof.
  induction lines as [|l rest IH]; cbn; [discriminate|].
  rewrite last_value_keep.
  destruct (last_value f rest None) as [w|] eqn:E; cbn [keep].
  - intros [= ->]. destruct (IH eq_refl) as (pre & l0 & post & -> & Hl0 & Hp).
    exists (l :: pre), l0, post; repeat split; assumption.
  - intros H. exists [], l, rest; repeat split.
    + destruct (f l); [assumption|discriminate].
    + clear -E. induction rest as [|r rest IH]; intros l' Hin; [easy|].
      cbn in E. rewrite last_value_keep in E.
      destruct (last_value f rest None) eqn:E'; [discriminate|].
      cbn in E. destruct Hin as [Heq|Hin].
      * subst l'. destruct (f r); [discriminate|reflexivity].
      * now apply IH.
Qed.

(** ** Lemmas on the checks *)

Lemma upper_lower_char c u :
  In u ["L"; "M"; "C"; "S"]%char ->
  PyStr.upper_char c = u <-> PyStr.lower_char c = PyStr.lower_char u.
Proof.
  intros [<-|[<-|[<-|[<-|[]]]]];
    destruct c as [[] [] [] [] [] [] [] []]; vm_compute; split; congruence.
Qed.

Lemma upper_is_caseless g t1 t2 t3 :
  In t1 ["L"; "M"; "C"; "S"]%char -> In t2 ["L"; "M"; "C"; "S"]%char ->
  In t3 ["L"; "M"; "C"; "S"]%char ->
  let t := String t1 (String t2 (String t3 EmptyString)) in
  PyStr.upper g = t <-> caseless_eq g t.
Proof.
  intros H1 H2 H3 t. unfold caseless_eq, t, PyStr.upper, PyStr.lower.
  destruct g as [|c1 [|c2 [|c3 [|c4 r]]]]; cbn [PyStr.map_chars];
    try (split; discriminate).
  pose proof (upper_lower_char c1 t1 H1) as P1.
  pose proof (upper_lower_char c2 t2 H2) as P2.
  pose proof (upper_lower_char c3 t3 H3) as P3.
  split; intros [= A B C]; f_equal; [|f_equal; [|f_equal] | |f_equal; [|f_equal]];
    tauto.
Qed.

(** [normalize] decides case-insensitive equality with the two names. *)
Lemma normalize_caseless g :
  match normalize g with
  | Some LMC => caseless_eq g "LMC"
  | Some SMC => caseless_eq g "SMC"
  | None => ~ caseless_eq g "LMC" /\ ~ caseless_eq g "SMC"
  end.
Proof.
  unfold normalize; cbv zeta.
  destruct (String.eqb_spec (PyStr.upper g) "LMC") as [E|E].
  - apply (upper_is_caseless g "L" "M" "C"); cbn; tauto.
  - destruct (String.eqb_spec (PyStr.upper g) "SMC") as [E'|E'].
    + apply (upper_is_caseless g "S" "M" "C"); cbn; tauto.
    + split; intros H; [apply E|apply E'].
      * apply (upper_is_caseless g "L" "M" "C"); cbn; tauto.
      * apply (upper_is_caseless g "S" "M" "C"); cbn; tauto.
Qed.

Lemma first_violation_app cs cs' q :
  first_violation (cs ++ cs')%list q =
    match first_violation cs q with
    | Some e => Some e
    | None => first_violation cs' q
    end.
Proof.
  induction cs as [|c cs IH]; cbn; [reflexivity|].
  destruct (c q); [reflexivity|apply IH].
Qed.

Lemma first_violation_at before c after q e :
  (forall c', In c' before -> c' q = None) ->
  c q = Some e ->
  first_violation (before ++ c :: after)%list q = Some e.
Proof.
  intros Hb Hc. induction before as [|b before IH]; cbn.
  - now rewrite Hc.
  - rewrite (Hb b (or_introl eq_refl)). apply IH.
    intros c' H; apply Hb; now right.
Qed.

Lemma float_or_int_num v :
  is_float_or_int v = true -> exists x, to_num v = Some x.
Proof. destruct v; try discriminate; intros _; eexists; reflexivity. Qed.

Lemma py_compare_num nop sop a b x y :
  to_num a = Some x -> to_num b = Some y ->
  py_compare nop sop a b = inr (nop x y).
Proof. unfold py_compare. now intros -> ->. Qed.

Lemma between_num lo v hi l x h :
  to_num lo = Some l -> to_num v = Some x -> to_num hi = Some h ->
  between lo v hi = inr (Num.leb l x && Num.leb x h).
Proof.
  intros Hl Hx Hh. unfold between, py_and, py_le.
  rewrite (py_compare_num _ _ _ _ _ _ Hl Hx), (py_compare_num _ _ _ _ _ _ Hx Hh).
  cbn. now destruct (Num.leb l x).
Qed.

(** The entries of the table are numbers. *)
Lemma survey_num g :
  exists u l h l' h',
    to_num (units_limit (survey g)) = Some u /\
    to_num (ra_lo (survey g)) = Some l /\ to_num (ra_hi (survey g)) = Some h /\
    to_num (dec_lo (survey g)) = Some l' /\ to_num (dec_hi (survey g)) = Some h' /\
    Num.gtb h u = false.
Proof.
  destruct g; do 5 eexists; repeat split; vm_compute; reflexivity.
Qed.

Lemma in_strs_error v ss e : py_in_strs v ss = inl e -> e = TypeError.
Proof. destruct v; cbn; intros [= <-]; reflexivity. Qed.

Lemma check_teff_cases q :
  check_teff q =
    match py_in_strs (a_teff q) ["all"; "cool"; "hot"] with
    | inl e => Some e
    | inr true => None
    | inr false => Some InvalidTeff
    end.
Proof.
  unfold check_teff, py_not, Exc.bind, Exc.ret.
  now destruct (py_in_strs (a_teff q) _) as [e|[]].
Qed.

(** The radius and teff checks can only raise these. *)
Lemma late_errors q e :
  first_violation [check_radius; check_teff] q = Some e ->
  e = InvalidRadius \/ e = TypeError \/ e = InvalidTeff.
Proof.
  cbn. rewrite check_teff_cases.
  unfold check_radius, py_not, py_and, py_lt, py_le,
    py_compare, Exc.bind, Exc.ret, Exc.raise.
  cbn [to_num].
  destruct (to_num (a_radius q)) as [r|].
  - destruct (Num.ltb (Num.of_Z 0) r); [destruct (Num.leb r (Num.of_Z 12))|];
      cbn [violated negb]; try (intros [= <-]; tauto).
    destruct (py_in_strs (a_teff q) _) as [e'|[]] eqn:Ht;
      [|discriminate|]; intros [= <-]; [|tauto].
    rewrite (in_strs_error _ _ _ Ht). tauto.
  - destruct (a_radius q); cbn; intros [= <-]; tauto.
Qed.

Lemma caseless_normalize galaxy :
  (caseless_eq galaxy "LMC" -> normalize galaxy = Some LMC) /\
  (caseless_eq galaxy "SMC" -> normalize galaxy = Some SMC).
Proof.
  pose proof (normalize_caseless galaxy) as N. unfold caseless_eq in *.
  destruct (normalize galaxy) as [[]|]; split; intros H; try reflexivity;
    try tauto; rewrite H in N; vm_compute in N; discriminate.
Qed.

(** The coordinate checks of a query for a recognised galaxy with [float]
    or [int] coordinates, spelled out on the numbers. *)
Lemma coordinate_checks_num galaxy g ra dec radius teff x y :
  normalize galaxy = Some g ->
  is_float_or_int ra = true -> is_float_or_int dec = true ->
  to_num ra = Some x -> to_num dec = Some y ->
  exists u l h l' h',
    to_num (units_limit (survey g)) = Some u /\
    to_num (ra_lo (survey g)) = Some l /\ to_num (ra_hi (survey g)) = Some h /\
    to_num (dec_lo (survey g)) = Some l' /\ to_num (dec_hi (survey g)) = Some h' /\
    Num.gtb h u = false /\
    first_violation coordinate_checks (mkArgs galaxy ra dec radius teff) =
      if Num.gtb x u then Some (ValueError (units_msg (survey g)))
      else if negb (Num.leb l x && Num.leb x h)
           then Some (ValueError (ra_msg (survey g)))
      else if negb (Num.leb l' y && Num.leb y h')
           then Some (ValueError (dec_msg (survey g)))
      else None.
Proof.
  intros Hg Hra Hdec Hx Hy.
  destruct (survey_num g) as (u & l & h & l' & h' & Hu & Hl & Hh & Hl' & Hh' & Hlt).
  exists u, l, h, l', h'. repeat (split; [assumption|]).
  unfold coordinate_checks; cbn [first_violation].
  unfold check_ra_type, check_dec_type, check_galaxy, check_units,
    check_ra_bounds, check_dec_bounds; cbn [a_galaxy a_ra a_dec].
  rewrite Hra, Hdec, Hg. cbn [negb Exc.ret violated].
  unfold py_gt. rewrite (py_compare_num _ _ _ _ _ _ Hx Hu).
  rewrite (between_num _ _ _ _ _ _ Hl Hx Hh), (between_num _ _ _ _ _ _ Hl' Hy Hh').
  unfold py_not, Exc.bind, Exc.ret. cbn [violated].
  destruct (Num.gtb x u); [reflexivity|].
  destruct (Num.leb l x && Num.leb x h); cbn [negb]; [|reflexivity].
  destruct (Num.leb l' y && Num.leb y h'); reflexivity.
Qed.

Lemma first_violation_some cs c q e :
  In c cs -> c q = Some e -> exists e', first_violation cs q = Some e'.
Proof.
  induction cs as [|c0 cs IH]; [easy|].
  intros [->|Hin] Hc; cbn.
  - rewrite Hc. now eexists.
  - destruct (c0 q); [now eexists|now apply IH].
Qed.

Lemma check_radius_num q r :
  to_num (a_radius q) = Some r ->
  check_radius q = if radius_in_range r then None else Some InvalidRadius.
Proof.
  intros Hr. unfold check_radius, py_not, py_and, py_lt, py_le, radius_in_range.
  rewrite (py_compare_num _ _ (PyInt 0) _ _ _ eq_refl Hr),
    (py_compare_num _ _ _ (PyInt 12) _ _ Hr eq_refl).
  cbn. destruct (Num.ltb (Num.of_Z 0) r); [|reflexivity].
  now destruct (Num.leb r (Num.of_Z 12)).
Qed.

(** ** Lemmas on the validation stage *)

Arguments flt : simpl never.
Arguments neg_flt : simpl never.

Section Run.

Variable server : request -> string + response.
Variable get_text : string -> string.

Local Abbreviation run := (get_extinction server get_text).

Lemma outcome_error answer e :
  outcome get_text answer = inl e ->
  e = NoStarsFound \/ exists msg, e = RequestException msg.
Proof.
  unfold outcome, Exc.raise. destruct answer as [msg|resp].
  - intros [= <-]. right; now exists msg.
  - destruct (status_ok resp).
    + cbv zeta.
      destruct (last_value mean_of _ None), (last_value stdev_of _ None);
        cbn; intros [= <-]; now left.
    + intros [= <-]. right; now eexists.
Qed.

Ltac unfold_run :=
  unfold get_extinction, checks, coordinate_checks, check_ra_type,
    check_dec_type, check_galaxy, check_units, check_ra_bounds,
    check_dec_bounds, check_radius, check_teff, normalize, between,
    is_float_or_int, IO.raise_if, IO.bind, IO.lift, IO.ret, IO.raise,
    requests_get, raise_for_status, status_ok, request_of, result_of,
    InvalidGalaxy, InvalidRadius, InvalidTeff, NoStarsFound;
  cbn [app first_violation violated a_galaxy a_ra a_dec a_radius a_teff
       Exc.ret Exc.raise negb].

(** An invalid query raises the error of its earliest violated check and
    sends nothing. *)
Lemma run_invalid galaxy ra dec radius teff e log :
  first_violation checks (mkArgs galaxy ra dec radius teff) = Some e ->
  run galaxy ra dec radius teff log = (inl e, log).
Proof.
  unfold_run.
  destruct (type_in (type_of ra) [float_t; int_t]); cbn [negb violated];
    [|congruence].
  destruct (type_in (type_of dec) [float_t; int_t]); cbn [negb violated];
    [|congruence].
  destruct (String.eqb (PyStr.upper galaxy) "LMC");
    [|destruct (String.eqb (PyStr.upper galaxy) "SMC")];
    cbn [survey units_limit ra_lo ra_hi dec_lo dec_hi units_msg ra_msg dec_msg
         violated]; try congruence.
  all: repeat match goal with
    | |- context [violated ?c _] =>
        let x := fresh in
        destruct c as [x|[]]; cbn [violated negb]; try congruence
    end.
Qed.

(** A valid query is for a recognised galaxy and sends exactly the request
    of that galaxy; what follows depends on the answer alone. *)
Lemma run_valid galaxy ra dec radius teff log :
  let q := mkArgs galaxy ra dec radius teff in
  first_violation checks q = None ->
  exists g,
    normalize galaxy = Some g /\
    run galaxy ra dec radius teff log =
      (outcome get_text (server (request_of g q)), (log ++ [request_of g q])%list).
Proof.
  unfold_run.
  destruct (type_in (type_of ra) [float_t; int_t]); cbn [negb violated];
    [|congruence].
  destruct (type_in (type_of dec) [float_t; int_t]); cbn [negb violated];
    [|congruence].
  destruct (String.eqb (PyStr.upper galaxy) "LMC");
    [|destruct (String.eqb (PyStr.upper galaxy) "SMC")];
    cbn [survey units_limit ra_lo ra_hi dec_lo dec_hi units_msg ra_msg dec_msg
         violated endpoint]; try congruence.
  all: repeat match goal with
    | |- context [violated ?c _] =>
        let x := fresh in
        destruct c as [x|[]]; cbn [violated negb]; try congruence
    end.
  all: intros _.
  all: eexists; split; [reflexivity|].
  all: cbn [endpoint survey]; unfold outcome, status_ok, Exc.ret, Exc.raise.
  all: match goal with
       | |- context [server ?r] => destruct (server r) as [e|resp]
       end; [reflexivity|]; cbv beta iota.
  all: destruct ((400 <=? status_code resp) && (status_code resp <? 600));
    cbn [negb]; [reflexivity|]; cbv beta iota zeta.
  all: rewrite scan_spec; unfold result_of, Exc.ret, Exc.raise, IO.ret;
    destruct (last_value mean_of _ None);
    [destruct (last_value stdev_of _ None)|]; reflexivity.
Qed.

(** Every run, in one equation. *)
Lemma run_eq galaxy ra dec radius teff log :
  let q := mkArgs galaxy ra dec radius teff in
  run galaxy ra dec radius teff log =
    match first_violation checks q, normalize galaxy with
    | Some e, _ => (inl e, log)
    | None, Some g =>
        (outcome get_text (server (request_of g q)), (log ++ [request_of g q])%list)
    | None, None => (inl InvalidGalaxy, log)
    end.
Proof.
  intros q. destruct (first_violation checks q) as [e|] eqn:E.
  - now apply run_invalid.
  - destruct (run_valid galaxy ra dec radius teff log E) as (g & -> & ->).
    reflexivity.
Qed.

Lemma run_answered galaxy ra dec radius teff resp log :
  answered server (mkArgs galaxy ra dec radius teff) resp ->
  fst (run galaxy ra dec radius teff log) =
    let lines := PyStr.splitlines (get_text (text resp)) in
    result_of (last_value mean_of lines None, last_value stdev_of lines None).
Proof.
  intros (Hv & Hs & Hok).
  destruct (run_valid galaxy ra dec radius teff log Hv) as (g & Hg & ->).
  cbn [fst]. unfold outcome. rewrite (Hs g Hg), Hok. reflexivity.
Qed.

(** ** The claims on the scan *)

(** C1 (as amended).  When the extracted text has a line
    ["<Av> = 0.45 (something)"] and a line
    ["Standard deviation of extinction values = 0.12 mag"], and no later
    line sets the same field again, a valid query with a successful request
    returns the pair (0.45, 0.12): on each of the two lines the value is the
    first whitespace-delimited token after the ['='], read as a float. *)
Theorem sample_lines_return_045_012
    galaxy ra dec radius teff resp log pre1 l1 post1 pre2 l2 post2 :
  answered server (mkArgs galaxy ra dec radius teff) resp ->
  PyStr.splitlines (get_text (text resp)) = (pre1 ++ l1 :: post1)%list ->
  PyStr.strip l1 = "<Av> = 0.45 (something)" ->
  (forall l, In l post1 -> mean_of l = None) ->
  PyStr.splitlines (get_text (text resp)) = (pre2 ++ l2 :: post2)%list ->
  PyStr.strip l2 = "Standard deviation of extinction values = 0.12 mag" ->
  (forall l, In l post2 -> stdev_of l = None) ->
  fst (run galaxy ra dec radius teff log) =
    inr (PyFloat.lit "0.45", PyFloat.lit "0.12").
Proof.
  intros Ha E1 S1 P1 E2 S2 P2.
  rewrite (run_answered _ _ _ _ _ _ _ Ha); cbv zeta.
  rewrite E1 at 1. rewrite E2.
  rewrite (last_value_last mean_of pre1 l1 post1 (PyFloat.lit "0.45")); trivial.
  - rewrite (last_value_last stdev_of pre2 l2 post2 (PyFloat.lit "0.12")); trivial.
    unfold stdev_of, line_value. rewrite S2. vm_compute. reflexivity.
  - unfold mean_of, line_value. rewrite S1. vm_compute. reflexivity.
Qed.

(** C2.  After a successful request the call returns a pair only when both
    values were extracted from marker lines; when every line bearing the
    marker of the mean fails to parse (in particular when no line bears
    it), and likewise for the deviation, the call fails with NoStarsFound;
    and the outcome is always that failure or a full pair. *)
Theorem pair_or_no_stars galaxy ra dec radius teff resp log :
  answered server (mkArgs galaxy ra dec radius teff) resp ->
  let lines := PyStr.splitlines (get_text (text resp)) in
  let r := fst (run galaxy ra dec radius teff log) in
  (forall m s, r = inr (m, s) ->
     (exists l, In l lines /\
                PyStr.contains AV_MARKER (PyStr.strip l) = true /\
                parse_value (PyStr.strip l) = inr m) /\
     (exists l, In l lines /\
                PyStr.contains SD_MARKER (PyStr.strip l) = true /\
                parse_value (PyStr.strip l) = inr s)) /\
  ((forall l, In l lines -> PyStr.contains AV_MARKER (PyStr.strip l) = true ->
              exists e, parse_value (PyStr.strip l) = inl e) ->
   r = inl NoStarsFound) /\
  ((forall l, In l lines -> PyStr.contains SD_MARKER (PyStr.strip l) = true ->
              exists e, parse_value (PyStr.strip l) = inl e) ->
   r = inl NoStarsFound) /\
  (r = inl NoStarsFound \/ exists m s, r = inr (m, s)).
Proof.
  intros Ha lines r.
  assert (Hr : r = result_of (last_value mean_of lines None,
                              last_value stdev_of lines None))
    by (apply run_answered, Ha).
  clearbody r. subst r. split; [|split; [|split]].
  - intros m s Hr.
    destruct (last_value mean_of lines None) as [m'|] eqn:Em; [|discriminate].
    destruct (last_value stdev_of lines None) as [s'|] eqn:Es; [|discriminate].
    injection Hr as -> ->.
    destruct (last_value_found _ _ _ Em) as (pre & l & post & El & Hl & _).
    destruct (last_value_found _ _ _ Es) as (pre' & l' & post' & El' & Hl' & _).
    split.
    + exists l. unfold mean_of, line_value in Hl.
      destruct (PyStr.contains AV_MARKER (PyStr.strip l)); [|discriminate].
      destruct (parse_value (PyStr.strip l)); [discriminate|].
      injection Hl as ->. split; [|split; reflexivity].
      rewrite El. apply in_or_app; right; now left.
    + exists l'. unfold stdev_of, line_value in Hl'.
      destruct (PyStr.contains AV_MARKER (PyStr.strip l')); [discriminate|].
      destruct (PyStr.contains SD_MARKER (PyStr.strip l')); [|discriminate].
      destruct (parse_value (PyStr.strip l')); [discriminate|].
      injection Hl' as ->. split; [|split; reflexivity].
      rewrite El'. apply in_or_app; right; now left.
  - intros H. rewrite (last_value_none mean_of); [reflexivity|].
    intros l Hl. unfold mean_of, line_value.
    destruct (PyStr.contains AV_MARKER (PyStr.strip l)) eqn:E; [|reflexivity].
    destruct (H l Hl E) as [e ->]. reflexivity.
  - intros H. rewrite (last_value_none stdev_of).
    + now destruct (last_value mean_of lines None).
    + intros l Hl. unfold stdev_of, line_value.
      destruct (PyStr.contains AV_MARKER (PyStr.strip l)); [reflexivity|].
      destruct (PyStr.contains SD_MARKER (PyStr.strip l)) eqn:E; [|reflexivity].
      destruct (H l Hl E) as [e ->]. reflexivity.
  - destruct (last_value mean_of lines None) as [m|];
      destruct (last_value stdev_of lines None) as [s|]; cbn;
      solve [now left | right; now exists m, s].
Qed.

(** C3 (as amended).  When several lines set the same field, the value
    returned for it is the one of the LAST line that sets it: the last line
    bearing ["<Av> ="] whose value parses for the mean, and the last line
    bearing the deviation marker, and not ["<Av> ="], whose value parses
    for the deviation. *)
Theorem last_match_wins
    galaxy ra dec radius teff resp log pre1 l1 post1 v pre2 l2 post2 w :
  answered server (mkArgs galaxy ra dec radius teff) resp ->
  PyStr.splitlines (get_text (text resp)) = (pre1 ++ l1 :: post1)%list ->
  mean_of l1 = Some v ->
  (forall l, In l post1 -> mean_of l = None) ->
  PyStr.splitlines (get_text (text resp)) = (pre2 ++ l2 :: post2)%list ->
  stdev_of l2 = Some w ->
  (forall l, In l post2 -> stdev_of l = None) ->
  fst (run galaxy ra dec radius teff log) = inr (v, w).
Proof.
  intros Ha E1 S1 P1 E2 S2 P2.
  rewrite (run_answered _ _ _ _ _ _ _ Ha); cbv zeta.
  rewrite E1 at 1. rewrite E2.
  rewrite (last_value_last mean_of pre1 l1 post1 v),
          (last_value_last stdev_of pre2 l2 post2 w); trivial.
Qed.

(** ** The claims on the validation stage *)

(** Once the coordinate checks have passed, only these errors remain. *)
Lemma run_after_coordinates galaxy ra dec radius teff log e :
  first_violation coordinate_checks (mkArgs galaxy ra dec radius teff) = None ->
  fst (run galaxy ra dec radius teff log) = inl e ->
  e = InvalidRadius \/ e = TypeError \/ e = InvalidTeff \/
  e = NoStarsFound \/ exists msg, e = RequestException msg.
Proof.
  intros Hc. rewrite run_eq; cbv zeta.
  unfold checks. rewrite first_violation_app, Hc.
  destruct (first_violation [check_radius; check_teff] _) as [e'|] eqn:E.
  - cbn [fst]. intros [= <-]. destruct (late_errors _ _ E) as [H|[H|H]]; tauto.
  - destruct (normalize galaxy) as [g|] eqn:Hg; cbn [fst].
    + intros H. destruct (outcome_error _ _ H); tauto.
    + revert Hc. unfold coordinate_checks; cbn [first_violation].
      unfold check_galaxy at 1; cbn [a_galaxy]. rewrite Hg.
      destruct (check_ra_type _); [discriminate|].
      destruct (check_dec_type _); discriminate.
Qed.

Lemma not_coordinate_error e :
  e = InvalidRadius \/ e = TypeError \/ e = InvalidTeff \/
  e = NoStarsFound \/ (exists msg, e = RequestException msg) ->
  is_InvalidCoordinateType e = false /\ is_CoordinateUnitMismatch e = false /\
  is_CoordinateOutOfRange e = false /\ e <> InvalidGalaxy.
Proof.
  intros [->|[->|[->|[->|[msg ->]]]]]; repeat split; try reflexivity;
    discriminate.
Qed.

(** C4 (as amended).  For every galaxy string that is not case-insensitively
    equal to "LMC" or "SMC", every ra and dec of type float or int, and all
    values of radius and teff, the call fails with InvalidGalaxy (and sends
    nothing). *)
Theorem unknown_galaxy_rejected galaxy ra dec radius teff log :
  ~ caseless_eq galaxy "LMC" -> ~ caseless_eq galaxy "SMC" ->
  is_float_or_int ra = true -> is_float_or_int dec = true ->
  run galaxy ra dec radius teff log = (inl InvalidGalaxy, log).
Proof.
  intros HL HS Hra Hdec. apply run_invalid.
  pose proof (caseless_normalize galaxy) as [NL NS].
  pose proof (normalize_caseless galaxy) as N.
  destruct (normalize galaxy) as [[]|] eqn:E; try tauto.
  unfold checks, coordinate_checks; cbn [app first_violation].
  unfold check_ra_type, check_dec_type, check_galaxy; cbn [a_ra a_dec a_galaxy].
  now rewrite Hra, Hdec, E.
Qed.

(** C5.  With float or int coordinates, an ra above the limit of the galaxy
    (7.0 for LMC, 6.0 for SMC) fails with CoordinateUnitMismatch although
    the ra also lies outside the bounds of the galaxy, so the error of the
    bounds check is not the one raised; LMC with ra = 78.0 fails so, and
    LMC with ra = 5.20, dec = -69.50 passes every coordinate check. *)
Theorem unit_mismatch_before_bounds :
  (forall galaxy g ra dec radius teff log,
     normalize galaxy = Some g ->
     is_float_or_int ra = true -> is_float_or_int dec = true ->
     py_gt ra (units_limit (survey g)) = inr true ->
     run galaxy ra dec radius teff log =
       (inl (ValueError (units_msg (survey g))), log) /\
     is_CoordinateUnitMismatch (ValueError (units_msg (survey g))) = true /\
     is_CoordinateOutOfRange (ValueError (units_msg (survey g))) = false /\
     between (ra_lo (survey g)) ra (ra_hi (survey g)) = inr false) /\
  (forall galaxy dec radius teff log,
     caseless_eq galaxy "LMC" -> is_float_or_int dec = true ->
     run galaxy (flt "78.0") dec radius teff log =
       (inl (ValueError Msg.lmc_units), log)) /\
  (forall galaxy radius teff log,
     caseless_eq galaxy "LMC" ->
     first_violation coordinate_checks
       (mkArgs galaxy (flt "5.20") (neg_flt "69.50") radius teff) = None /\
     forall e,
       fst (run galaxy (flt "5.20") (neg_flt "69.50") radius teff log) = inl e ->
       is_InvalidCoordinateType e = false /\
       is_CoordinateUnitMismatch e = false /\
       is_CoordinateOutOfRange e = false /\ e <> InvalidGalaxy).
Proof.
  assert (main : forall galaxy g ra dec radius teff log,
     normalize galaxy = Some g ->
     is_float_or_int ra = true -> is_float_or_int dec = true ->
     py_gt ra (units_limit (survey g)) = inr true ->
     run galaxy ra dec radius teff log =
       (inl (ValueError (units_msg (survey g))), log) /\
     is_CoordinateUnitMismatch (ValueError (units_msg (survey g))) = true /\
     is_CoordinateOutOfRange (ValueError (units_msg (survey g))) = false /\
     between (ra_lo (survey g)) ra (ra_hi (survey g)) = inr false).
  { intros galaxy g ra dec radius teff log Hg Hra Hdec Hgt.
    destruct (float_or_int_num ra Hra) as [x Hx].
    destruct (float_or_int_num dec Hdec) as [y Hy].
    destruct (coordinate_checks_num galaxy g ra dec radius teff x y Hg Hra Hdec Hx Hy)
      as (u & l & h & l' & h' & Hu & Hl & Hh & Hl' & Hh' & Hlt & Hc).
    unfold py_gt in Hgt. rewrite (py_compare_num _ _ _ _ _ _ Hx Hu) in Hgt.
    injection Hgt as Hgt. rewrite Hgt in Hc.
    split; [|split; [|split]].
    - apply run_invalid. unfold checks. now rewrite first_violation_app, Hc.
    - destruct g; reflexivity.
    - destruct g; reflexivity.
    - rewrite (between_num _ _ _ _ _ _ Hl Hx Hh). f_equal.
      destruct (Num.leb x h) eqn:Hle; [|apply andb_false_r].
      rewrite (NumFacts.leb_gtb_trans x u h Hle Hgt) in Hlt. discriminate. }
  split; [exact main|split].
  - intros galaxy dec radius teff log Hg Hdec.
    apply (main galaxy LMC); trivial.
    now apply caseless_normalize.
  - intros galaxy radius teff log Hg.
    apply caseless_normalize in Hg.
    assert (Hc : first_violation coordinate_checks
                   (mkArgs galaxy (flt "5.20") (neg_flt "69.50") radius teff) = None).
    { destruct (coordinate_checks_num galaxy LMC (flt "5.20") (neg_flt "69.50")
                  radius teff _ _ Hg eq_refl eq_refl eq_refl eq_refl)
        as (u & l & h & l' & h' & Hu & Hl & Hh & Hl' & Hh' & _ & ->).
      vm_compute in Hu, Hl, Hh, Hl', Hh'.
      injection Hu as <-; injection Hl as <-; injection Hh as <-;
        injection Hl' as <-; injection Hh' as <-.
      vm_compute. reflexivity. }
    split; [exact Hc|].
    intros e He. apply not_coordinate_error.
    exact (run_after_coordinates galaxy (flt "5.20") (neg_flt "69.50")
             radius teff log e Hc He).
Qed.

(** C6.  With float or int coordinates that pass the unit check of a
    recognised galaxy, the call fails with CoordinateOutOfRange exactly when
    the position is outside the rectangle of that galaxy ([survey]: LMC ra
    4.48..6.27 and dec -72.5..-65.2, SMC ra 0.375..1.375 and dec
    -74.9..-70.4). *)
Theorem out_of_range_iff_outside galaxy g ra dec radius teff log :
  normalize galaxy = Some g ->
  is_float_or_int ra = true -> is_float_or_int dec = true ->
  py_gt ra (units_limit (survey g)) = inr false ->
  ((exists e, fst (run galaxy ra dec radius teff log) = inl e /\
              is_CoordinateOutOfRange e = true) <->
   ~ in_footprint g ra dec).
Proof.
  intros Hg Hra Hdec Hgt.
  destruct (float_or_int_num ra Hra) as [x Hx].
  destruct (float_or_int_num dec Hdec) as [y Hy].
  destruct (coordinate_checks_num galaxy g ra dec radius teff x y Hg Hra Hdec Hx Hy)
    as (u & l & h & l' & h' & Hu & Hl & Hh & Hl' & Hh' & Hlt & Hc).
  unfold py_gt in Hgt. rewrite (py_compare_num _ _ _ _ _ _ Hx Hu) in Hgt.
  injection Hgt as Hgt. rewrite Hgt in Hc.
  unfold in_footprint.
  rewrite (between_num _ _ _ _ _ _ Hl Hx Hh), (between_num _ _ _ _ _ _ Hl' Hy Hh').
  destruct (Num.leb l x && Num.leb x h); cbn [negb] in Hc;
    [destruct (Num.leb l' y && Num.leb y h'); cbn [negb] in Hc|].
  - split; [|tauto]. intros (e & He & Ho) _.
    pose proof (run_after_coordinates galaxy ra dec radius teff log e Hc He) as H.
    apply not_coordinate_error in H. destruct H as (_ & _ & H & _). congruence.
  - split; [intros _ [_ [=]]|intros _].
    exists (ValueError (dec_msg (survey g))). split; [|destruct g; reflexivity].
    rewrite (run_invalid galaxy ra dec radius teff
               (ValueError (dec_msg (survey g))) log); [reflexivity|].
    unfold checks. now rewrite first_violation_app, Hc.
  - split; [intros _ [[=] _]|intros _].
    exists (ValueError (ra_msg (survey g))). split; [|destruct g; reflexivity].
    rewrite (run_invalid galaxy ra dec radius teff
               (ValueError (ra_msg (survey g))) log); [reflexivity|].
    unfold checks. now rewrite first_violation_app, Hc.
Qed.

(** The radius check on a number (lines 64-65).  When the coordinate
    checks pass and the radius is an int, a float or a bool, the call fails
    with InvalidRadius exactly when [0 < radius <= 12] does not hold; for a
    finite radius this is the condition on its exact rational value (an
    infinite or NaN radius never satisfies it). *)
Theorem invalid_radius_iff galaxy ra dec radius teff r log :
  first_violation coordinate_checks (mkArgs galaxy ra dec radius teff) = None ->
  to_num radius = Some r ->
  (fst (run galaxy ra dec radius teff log) = inl InvalidRadius <->
   radius_in_range r = false) /\
  match r with
  | Num.Fin m e =>
      radius_in_range r = true <-> (0 < Num.to_Q m e /\ Num.to_Q m e <= 12)%Q
  | _ => radius_in_range r = false
  end.
Proof.
  intros Hc Hr. split;
    [|destruct r as [|[]|m e]; try reflexivity;
      apply (NumFacts.ltb_leb_Q 0 12 m e)].
  rewrite run_eq; cbv zeta.
  unfold checks. rewrite first_violation_app, Hc. cbn [first_violation].
  rewrite (check_radius_num (mkArgs galaxy ra dec radius teff) r Hr).
  destruct (radius_in_range r).
  - split; [|discriminate]. rewrite check_teff_cases; cbn [a_teff].
    destruct (py_in_strs teff _) as [e'|[]] eqn:Ht; cbn [fst];
      [rewrite (in_strs_error _ _ _ Ht); discriminate| |discriminate].
    destruct (normalize galaxy); cbn [fst]; [|discriminate].
    intros H. destruct (outcome_error _ _ H) as [E|[msg E]]; discriminate.
  - split; reflexivity.
Qed.

(** C8.  A call whose checks all pass sends exactly one request, to the
    endpoint of its galaxy with the parameters ra, dec, searchrad = radius
    and teff; a call with any violated check sends none and raises; this is
    so in particular when ra or dec is not a float or int, which fails with
    InvalidCoordinateType. *)
Theorem one_request_after_validation galaxy ra dec radius teff log :
  let q := mkArgs galaxy ra dec radius teff in
  let out := run galaxy ra dec radius teff log in
  (first_violation checks q = None ->
   exists g,
     normalize galaxy = Some g /\
     snd out =
       (log ++ [mkRequest (endpoint (survey g))
                  [("ra", ra); ("dec", dec);
                   ("searchrad", radius); ("teff", teff)]])%list) /\
  (forall c e, In c checks -> c q = Some e ->
     snd out = log /\ exists e', fst out = inl e') /\
  (is_float_or_int ra = false \/ is_float_or_int dec = false ->
   snd out = log /\
   exists e, fst out = inl e /\ is_InvalidCoordinateType e = true).
Proof.
  intros q out. split; [|split].
  - intros Hv.
    destruct (run_valid galaxy ra dec radius teff log Hv) as (g & Hg & E).
    exists g. split; [exact Hg|]. unfold out. now rewrite E.
  - intros c e Hin Hc.
    destruct (first_violation_some checks c q e Hin Hc) as [e' He'].
    unfold out. rewrite (run_invalid galaxy ra dec radius teff e' log He').
    split; [reflexivity|now exists e'].
  - intros H.
    assert (Hv : exists e, first_violation checks q = Some e /\
                           is_InvalidCoordinateType e = true).
    { unfold checks, coordinate_checks, q; cbn [app first_violation].
      unfold check_ra_type, check_dec_type; cbn [a_ra a_dec].
      destruct (is_float_or_int ra); cbn [negb Exc.ret violated];
        [|eexists; split; reflexivity].
      destruct H as [H|H]; [discriminate|]. rewrite H; cbn [negb violated].
      eexists; split; reflexivity. }
    destruct Hv as (e & He & Ht).
    unfold out. rewrite (run_invalid galaxy ra dec radius teff e log He).
    split; [reflexivity|now exists e].
Qed.

(** C9.  The checks run in the order ra type, dec type, galaxy, ra units,
    ra bounds, dec bounds, radius, teff: the error raised is that of the
    earliest violated check, whatever the later ones say; so a query whose
    ra is not a float or int and whose galaxy is unknown fails with the
    coordinate-type error, not with InvalidGalaxy. *)
Theorem earliest_violation_raised galaxy ra dec radius teff log :
  let q := mkArgs galaxy ra dec radius teff in
  checks = [check_ra_type; check_dec_type; check_galaxy; check_units;
            check_ra_bounds; check_dec_bounds; check_radius; check_teff] /\
  (forall before c after e,
     checks = (before ++ c :: after)%list ->
     (forall c', In c' before -> c' q = None) ->
     c q = Some e ->
     run galaxy ra dec radius teff log = (inl e, log)) /\
  (is_float_or_int ra = false -> normalize galaxy = None ->
   check_galaxy q = Some InvalidGalaxy /\
   run galaxy ra dec radius teff log = (inl (ValueError Msg.ra_type), log) /\
   is_InvalidCoordinateType (ValueError Msg.ra_type) = true /\
   ValueError Msg.ra_type <> InvalidGalaxy).
Proof.
  intros q. split; [reflexivity|split].
  - intros before c after e Hsplit Hb Hc.
    apply run_invalid. fold q. rewrite Hsplit.
    now apply first_violation_at.
  - intros Hra Hg. split; [|split; [|split]].
    + unfold check_galaxy; cbn [a_galaxy q]. now rewrite Hg.
    + apply run_invalid.
      unfold checks, coordinate_checks; cbn [app first_violation].
      unfold check_ra_type; cbn [a_ra]. now rewrite Hra.
    + reflexivity.
    + discriminate.
Qed.

End Run.

(** ** Lemmas on the token of a line that is read *)

Lemma split_sep_head c s :
  exists fs, PyStr.split_sep c s = before_first c s :: fs.
Proof.
  induction s as [|a r [fs IH]]; cbn.
  - now exists [].
  - destruct (Ascii.eqb a c); [now eexists|].
    rewrite IH. now eexists.
Qed.

Lemma split_sep_second c s :
  nth_error (PyStr.split_sep c s) 1 =
    option_map (before_first c) (after_first c s).
Proof.
  induction s as [|a r IH]; cbn; [reflexivity|].
  destruct (Ascii.eqb a c).
  - destruct (split_sep_head c r) as [fs ->]. reflexivity.
  - destruct (split_sep_head c r) as [fs E]. rewrite E in *. exact IH.
Qed.

Lemma first_token_cons a r :
  first_token (String a r) =
    if PyStr.is_space a then first_token r else Some (String a (token r)).
Proof.
  unfold first_token; cbn. destruct (PyStr.is_space a) eqn:E; [reflexivity|].
  cbn. now rewrite E.
Qed.

Lemma split_first s :
  nth_error (PyStr.split s) 0 = first_token s.
Proof.
  induction s as [|a r IH]; [reflexivity|].
  rewrite first_token_cons. cbn [PyStr.split].
  destruct (PyStr.is_space a); [exact IH|].
  destruct r as [|b r']; [reflexivity|].
  rewrite first_token_cons in IH. cbn [token].
  destruct (PyStr.is_space b); [reflexivity|].
  destruct (PyStr.split (String b r')) as [|f fs]; [discriminate|].
  cbn in IH |- *. now injection IH as ->.
Qed.

(** The source expression, token by token. *)
Lemma parse_value_spec line :
  parse_value line =
    match after_first "="%char line with
    | None => Exc.raise IndexError
    | Some rest =>
        match first_token (before_first "="%char rest) with
        | None => Exc.raise IndexError
        | Some tok => py_float tok
        end
    end.
Proof.
  unfold parse_value, Exc.index, Exc.bind, Exc.ret, Exc.raise.
  rewrite split_sep_second.
  destruct (after_first "="%char line) as [rest|]; cbn [option_map];
    [|reflexivity].
  rewrite split_first.
  now destruct (first_token (before_first "="%char rest)).
Qed.

Lemma contains_char_cons c b r :
  PyStr.contains (String c EmptyString) (String b r) =
    Ascii.eqb b c || PyStr.contains (String c EmptyString) r.
Proof.
  cbn [PyStr.contains prefix].
  destruct (ascii_dec c b) as [->|N].
  - rewrite Ascii.eqb_refl. now destruct r.
  - destruct (Ascii.eqb_spec b c) as [->|_]; [contradiction|reflexivity].
Qed.

Lemma token_before_first c r :
  PyStr.is_space c = false ->
  PyStr.contains (String c EmptyString) (token r) = false ->
  token (before_first c r) = token r.
Proof.
  intros Hc. induction r as [|b r IH]; cbn; [reflexivity|].
  destruct (Ascii.eqb_spec b c) as [->|N].
  - rewrite Hc, contains_char_cons, Ascii.eqb_refl. discriminate.
  - cbn. destruct (PyStr.is_space b); [reflexivity|].
    rewrite contains_char_cons. intros H. apply orb_false_elim in H as [_ H].
    now rewrite IH.
Qed.

Lemma first_token_before_first c rest tok :
  PyStr.is_space c = false ->
  first_token rest = Some tok ->
  PyStr.contains (String c EmptyString) tok = false ->
  first_token (before_first c rest) = Some tok.
Proof.
  intros Hc. induction rest as [|a r IH]; [discriminate|].
  rewrite first_token_cons. cbn [before_first].
  destruct (PyStr.is_space a) eqn:Ea.
  - destruct (Ascii.eqb_spec a c) as [->|_]; [congruence|].
    rewrite first_token_cons, Ea. exact IH.
  - intros [= <-]. rewrite contains_char_cons.
    destruct (Ascii.eqb a c); [discriminate|]. cbn [orb]. intros H.
    rewrite first_token_cons, Ea. now rewrite token_before_first.
Qed.

Lemma after_first_app c pre rest :
  PyStr.contains (String c EmptyString) pre = false ->
  after_first c (pre ++ String c rest) = Some rest.
Proof.
  induction pre as [|a r IH]; cbn [append after_first].
  - now rewrite Ascii.eqb_refl.
  - rewrite contains_char_cons. intros H. apply orb_false_elim in H as [-> H].
    now apply IH.
Qed.

(** C10 (as amended).  The value of a line is read from the first
    whitespace-delimited token of the text between the FIRST ['='] of the
    line and the next ['='] (or the end of the line): what precedes the
    first ['='] plays no part, so an ['='] before the marker takes the place
    of the marker's own; when the token that follows the first ['='] holds
    no ['='] itself it is the token read; and a marker line whose token
    does not parse sets nothing. *)
Theorem value_token_between_equals line :
  parse_value line =
    match after_first "="%char line with
    | None => Exc.raise IndexError
    | Some rest =>
        match first_token (before_first "="%char rest) with
        | None => Exc.raise IndexError
        | Some tok => py_float tok
        end
    end /\
  (forall pre rest,
     line = pre ++ String "="%char rest -> PyStr.contains "=" pre = false ->
     parse_value line = parse_value (String "="%char rest)) /\
  (forall tok,
     token_after_first_eq line = Some tok -> PyStr.contains "=" tok = false ->
     parse_value line = py_float tok) /\
  (forall e,
     parse_value (PyStr.strip line) = inl e ->
     mean_of line = None /\ stdev_of line = None).
Proof.
  split; [apply parse_value_spec|split; [|split]].
  - intros pre rest -> Hpre. rewrite !parse_value_spec.
    rewrite (after_first_app _ _ _ Hpre). cbn [after_first].
    now rewrite Ascii.eqb_refl.
  - unfold token_after_first_eq. intros tok Htok Hno.
    rewrite parse_value_spec.
    destruct (after_first "="%char line) as [rest|]; [|discriminate].
    now rewrite (first_token_before_first "="%char rest tok eq_refl Htok Hno).
  - intros e He. unfold mean_of, stdev_of, line_value. rewrite He.
    destruct (PyStr.contains AV_MARKER (PyStr.strip line));
      [|destruct (PyStr.contains SD_MARKER (PyStr.strip line))]; split; reflexivity.
Qed.

(** ** Concrete runs *)

Lemma mock_answered text :
  answered (Mock.serve text) Mock.query (mkResponse 200 text).
Proof.
  split; [vm_compute; reflexivity|split; [intros; reflexivity|reflexivity]].
Defined.

(** C1, a run on the sample answer. *)
Lemma sample_lines_return_045_012_witness :
  fst (Mock.run Mock.sample) = inr (PyFloat.lit "0.45", PyFloat.lit "0.12").
Proof.
  apply (sample_lines_return_045_012 (Mock.serve Mock.sample)
           (Mock.extracts Mock.sample) "LMC" (flt "5.20") (neg_flt "69.50")
           (PyInt 10) (PyStr "all") (mkResponse 200 Mock.sample) []
           [] Mock.av_045 [Mock.sd_012] [Mock.av_045] Mock.sd_012 []).
  - apply mock_answered.
  - vm_compute; reflexivity.
  - vm_compute; reflexivity.
  - intros l [<-|[]]; vm_compute; reflexivity.
  - vm_compute; reflexivity.
  - vm_compute; reflexivity.
  - intros l [].
Defined.

(** C1 as stated fails: the text holds both sample lines, and a later
    ["<Av> ="] line replaces the mean. *)
Lemma sample_lines_overridden :
  let lines := PyStr.splitlines Mock.sample_then_099 in
  In Mock.av_045 lines /\ In Mock.sd_012 lines /\
  answered (Mock.serve Mock.sample_then_099) Mock.query
    (mkResponse 200 Mock.sample_then_099) /\
  fst (Mock.run Mock.sample_then_099) =
    inr (PyFloat.lit "0.99", PyFloat.lit "0.12") /\
  fst (Mock.run Mock.sample_then_099) <>
    inr (PyFloat.lit "0.45", PyFloat.lit "0.12").
Proof.
  cbv zeta. split; [|split; [|split; [|split]]].
  - vm_compute; tauto.
  - vm_compute; tauto.
  - apply mock_answered.
  - vm_compute; reflexivity.
  - vm_compute; discriminate.
Qed.

(** C2, a run on an answer without marker lines. *)
Lemma pair_or_no_stars_witness :
  fst (Mock.run Mock.no_marker) = inl NoStarsFound.
Proof.
  apply (pair_or_no_stars (Mock.serve Mock.no_marker)
           (Mock.extracts Mock.no_marker) "LMC" (flt "5.20") (neg_flt "69.50")
           (PyInt 10) (PyStr "all") (mkResponse 200 Mock.no_marker) []
           (mock_answered Mock.no_marker)).
  intros l [<-|[]]; vm_compute; discriminate.
Defined.

(** C3, a run on an answer with two lines for each marker. *)
Lemma last_match_wins_witness :
  fst (Mock.run Mock.two_of_each) = inr (PyFloat.lit "0.99", PyFloat.lit "0.30").
Proof.
  apply (last_match_wins (Mock.serve Mock.two_of_each)
           (Mock.extracts Mock.two_of_each) "LMC" (flt "5.20") (neg_flt "69.50")
           (PyInt 10) (PyStr "all") (mkResponse 200 Mock.two_of_each) []
           [Mock.av_045; Mock.sd_012] Mock.av_099 [Mock.sd_030] (PyFloat.lit "0.99")
           [Mock.av_045; Mock.sd_012; Mock.av_099] Mock.sd_030 [] (PyFloat.lit "0.30")).
  - apply mock_answered.
  - vm_compute; reflexivity.
  - vm_compute; reflexivity.
  - intros l [<-|[]]; vm_compute; reflexivity.
  - vm_compute; reflexivity.
  - vm_compute; reflexivity.
  - intros l [].
Defined.

(** C3 as stated fails: two ["<Av> ="] lines with the distinct values 0.45
    and 0.99, in this order, and the mean returned is not the first. *)
Lemma first_match_loses :
  PyStr.splitlines Mock.two_of_each =
    [Mock.av_045; Mock.sd_012; Mock.av_099; Mock.sd_030] /\
  mean_of Mock.av_045 = Some (PyFloat.lit "0.45") /\
  mean_of Mock.av_099 = Some (PyFloat.lit "0.99") /\
  PyFloat.lit "0.45" <> PyFloat.lit "0.99" /\
  answered (Mock.serve Mock.two_of_each) Mock.query
    (mkResponse 200 Mock.two_of_each) /\
  (forall s, fst (Mock.run Mock.two_of_each) <> inr (PyFloat.lit "0.45", s)).
Proof.
  split; [|split; [|split; [|split; [|split]]]].
  - vm_compute; reflexivity.
  - vm_compute; reflexivity.
  - vm_compute; reflexivity.
  - vm_compute; discriminate.
  - apply mock_answered.
  - intros s. vm_compute. discriminate.
Qed.

(** C4, an unknown galaxy with coordinates of the right type. *)
Lemma unknown_galaxy_rejected_witness :
  get_extinction (Mock.serve "") (Mock.extracts "")
    "M31" (flt "5.20") (neg_flt "69.50") PyNone PyNone [] =
  (inl InvalidGalaxy, []).
Proof.
  apply unknown_galaxy_rejected.
  - intros H; vm_compute in H; discriminate.
  - intros H; vm_compute in H; discriminate.
  - reflexivity.
  - reflexivity.
Defined.

(** C4 as stated fails: an unknown galaxy, an ra given as a sexagesimal
    string, and the error is the one of the ra type. *)
Lemma unknown_galaxy_after_ra_type :
  ~ caseless_eq "M31" "LMC" /\ ~ caseless_eq "M31" "SMC" /\
  get_extinction (Mock.serve "") (Mock.extracts "")
    "M31" (PyStr "04:30:00") (neg_flt "69.50") (PyInt 10) (PyStr "all") [] =
  (inl (ValueError Msg.ra_type), []) /\
  ValueError Msg.ra_type <> InvalidGalaxy.
Proof.
  split; [|split; [|split]].
  - intros H; vm_compute in H; discriminate.
  - intros H; vm_compute in H; discriminate.
  - vm_compute; reflexivity.
  - discriminate.
Qed.

(** C5, ra = 78 for LMC. *)
Lemma unit_mismatch_before_bounds_witness :
  get_extinction (Mock.serve "") (Mock.extracts "")
    "lmc" (PyInt 78) (neg_flt "69.50") (PyInt 10) (PyStr "all") [] =
  (inl (ValueError Msg.lmc_units), []).
Proof.
  apply (proj1 (unit_mismatch_before_bounds (Mock.serve "") (Mock.extracts ""))
           "lmc" LMC (PyInt 78) (neg_flt "69.50") (PyInt 10) (PyStr "all") []).
  - vm_compute; reflexivity.
  - reflexivity.
  - reflexivity.
  - vm_compute; reflexivity.
Defined.

(** C6, dec = -80.0 for SMC. *)
Lemma out_of_range_iff_outside_witness :
  exists e,
    fst (get_extinction (Mock.serve "") (Mock.extracts "")
           "SMC" (flt "1.0") (neg_flt "80.0") (PyInt 10) (PyStr "all") []) = inl e /\
    is_CoordinateOutOfRange e = true.
Proof.
  apply (out_of_range_iff_outside (Mock.serve "") (Mock.extracts "")
           "SMC" SMC (flt "1.0") (neg_flt "80.0") (PyInt 10) (PyStr "all") []).
  - vm_compute; reflexivity.
  - reflexivity.
  - reflexivity.
  - vm_compute; reflexivity.
  - intros [_ H]; vm_compute in H; discriminate.
Defined.

(** C7, the radii 0, 12.01 and 12.0. *)
Lemma invalid_radius_iff_witness :
  let run r :=
    fst (get_extinction (Mock.serve "") (Mock.extracts "")
           "LMC" (flt "5.20") (neg_flt "69.50") r (PyStr "all") []) in
  run (PyInt 0) = inl InvalidRadius /\
  run (flt "12.01") = inl InvalidRadius /\
  run (flt "12.0") <> inl InvalidRadius.
Proof.
  cbv zeta. split; [|split].
  - apply (fun c n => proj1 (invalid_radius_iff (Mock.serve "") (Mock.extracts "")
             "LMC" (flt "5.20") (neg_flt "69.50") (PyInt 0) (PyStr "all")
             (Num.of_Z 0) [] c n)); vm_compute; reflexivity.
  - apply (fun c n => proj1 (invalid_radius_iff (Mock.serve "") (Mock.extracts "")
             "LMC" (flt "5.20") (neg_flt "69.50") (flt "12.01") (PyStr "all")
             (Num.of_float (PyFloat.lit "12.01")) [] c n)); vm_compute; reflexivity.
  - intros H.
    apply (fun c n => proj1 (invalid_radius_iff (Mock.serve "") (Mock.extracts "")
             "LMC" (flt "5.20") (neg_flt "69.50") (flt "12.0") (PyStr "all")
             (Num.of_float (PyFloat.lit "12.0")) [] c n)) in H;
      [vm_compute in H; discriminate| |]; vm_compute; reflexivity.
Defined.

(** C8, a valid query and one with a string for ra. *)
Lemma one_request_after_validation_witness :
  (exists g,
     normalize "LMC" = Some g /\
     snd (Mock.run Mock.sample) =
       [mkRequest (endpoint (survey g))
          [("ra", flt "5.20"); ("dec", neg_flt "69.50");
           ("searchrad", PyInt 10); ("teff", PyStr "all")]]) /\
  snd (get_extinction (Mock.serve "") (Mock.extracts "")
         "LMC" (PyStr "05:12:00") (neg_flt "69.50") (PyInt 10) (PyStr "all") []) = [].
Proof.
  split.
  - apply (proj1 (one_request_after_validation (Mock.serve Mock.sample)
             (Mock.extracts Mock.sample) "LMC" (flt "5.20") (neg_flt "69.50")
             (PyInt 10) (PyStr "all") [])).
    vm_compute; reflexivity.
  - apply (proj2 (proj2 (one_request_after_validation (Mock.serve "")
             (Mock.extracts "") "LMC" (PyStr "05:12:00") (neg_flt "69.50")
             (PyInt 10) (PyStr "all") []))).
    left; reflexivity.
Defined.

(** C9, a string for ra together with an unknown galaxy. *)
Lemma earliest_violation_raised_witness :
  get_extinction (Mock.serve "") (Mock.extracts "")
    "M31" (PyStr "04:30:00") (neg_flt "69.50") (PyInt 0) (PyStr "warm") [] =
  (inl (ValueError Msg.ra_type), []).
Proof.
  apply (proj2 (proj2 (earliest_violation_raised (Mock.serve "")
           (Mock.extracts "") "M31" (PyStr "04:30:00") (neg_flt "69.50")
           (PyInt 0) (PyStr "warm") []))).
  - reflexivity.
  - vm_compute; reflexivity.
Defined.

(** C10, a marker line with an earlier ['='], and the sample line. *)
Lemma value_token_between_equals_witness :
  parse_value "n=7 <Av> = 0.45" = parse_value "=7 <Av> = 0.45" /\
  parse_value Mock.av_045 = py_float "0.45".
Proof.
  split.
  - apply (proj1 (proj2 (value_token_between_equals "n=7 <Av> = 0.45"))
             "n" "7 <Av> = 0.45"); reflexivity.
  - apply (proj1 (proj2 (proj2 (value_token_between_equals Mock.av_045)))
             "0.45"); reflexivity.
Defined.

(** C10 as stated fails: on this marker line the token that follows the
    first ['='] is ["7=<Av>"], which is no number, yet the line sets the
    mean to 7. *)
Lemma token_cut_at_next_equals :
  let line := "n=7=<Av> = 0.45" in
  PyStr.contains AV_MARKER line = true /\
  token_after_first_eq line = Some "7=<Av>" /\
  (exists e, value_after_first_eq line = inl e) /\
  parse_value line = inr (PyFloat.lit "7") /\
  mean_of line = Some (PyFloat.lit "7") /\
  parse_value line <> value_after_first_eq line.
Proof.
  cbv zeta. repeat split; try (vm_compute; reflexivity).
  - eexists; vm_compute; reflexivity.
  - vm_compute; discriminate.
Qed.

(** ** Further properties of [get_extinction] *)

Lemma upper_lower s : PyStr.upper (PyStr.lower s) = PyStr.upper s.
Proof.
  unfold PyStr.upper, PyStr.lower.
  induction s as [|c r IH]; cbn [PyStr.map_chars]; [reflexivity|].
  rewrite IH. f_equal.
  destruct c as [[] [] [] [] [] [] [] []]; vm_compute; reflexivity.
Qed.

Lemma in_strs_spec teff :
  py_in_strs teff ["all"; "cool"; "hot"] = inr true <->
  teff = PyStr "all" \/ teff = PyStr "cool" \/ teff = PyStr "hot".
Proof.
  destruct teff as [| | | |s|ks vs]; cbn [py_in_strs existsb];
    try (split; [discriminate|intros [H|[H|H]]; discriminate]).
  unfold Exc.ret. split.
  - intros [= H]. revert H.
    rewrite orb_false_r, !orb_true_iff, !String.eqb_eq.
    intros [H|[H|H]]; subst; auto.
  - intros H. f_equal.
    rewrite orb_false_r, !orb_true_iff, !String.eqb_eq.
    destruct H as [H|[H|H]]; injection H; auto.
Qed.


Section Coverage.

Variable server : request -> string + response.
Variable get_text : string -> string.

Local Abbreviation run := (get_extinction server get_text).


(** The galaxy name is read through [upper()] alone (lines 35, 43, 52): two
    names that differ only in the case of their letters give the same run,
    the same outcome and the same requests. *)
Theorem galaxy_case_insensitive g g' ra dec radius teff log :
  caseless_eq g g' ->
  run g ra dec radius teff log = run g' ra dec radius teff log.
Proof.
  unfold caseless_eq. intros H.
  assert (E : PyStr.upper g = PyStr.upper g')
    by now rewrite <- (upper_lower g), H, upper_lower.
  unfold get_extinction. cbv zeta. now rewrite E.
Qed.

(** A failed request (lines 77-78): when the service cannot be reached the
    call raises the request exception, and when it answers with a status
    from 400 to 599 the call raises whatever the body holds; in both cases
    exactly one request was sent and none is repeated. *)
Theorem failed_request_raises galaxy g ra dec radius teff log :
  let q := mkArgs galaxy ra dec radius teff in
  first_violation checks q = None ->
  normalize galaxy = Some g ->
  (forall msg, server (request_of g q) = inl msg ->
     run galaxy ra dec radius teff log =
       (inl (RequestException msg), (log ++ [request_of g q])%list)) /\
  (forall resp, server (request_of g q) = inr resp ->
     400 <= status_code resp < 600 ->
     run galaxy ra dec radius teff log =
       (inl (RequestException "HTTPError"), (log ++ [request_of g q])%list)).
Proof.
  intros q Hv Hg.
  destruct (run_valid server get_text galaxy ra dec radius teff log Hv)
    as (g' & Hg' & ->).
  assert (g' = g) by congruence. subst g'. fold q. split.
  - intros msg ->. reflexivity.
  - intros resp -> [Hlo Hhi]. unfold outcome, status_ok.
    replace (400 <=? status_code resp) with true by (symmetry; now apply Z.leb_le).
    replace (status_code resp <? 600) with true by (symmetry; now apply Z.ltb_lt).
    reflexivity.
Qed.

(** [raise_for_status] (line 78) only looks for 400..599: an answer with
    any other status (1xx, 3xx, ...) is scanned like an answer with status
    200 and the same body. *)
Theorem other_status_as_200 galaxy g ra dec radius teff resp log :
  let q := mkArgs galaxy ra dec radius teff in
  first_violation checks q = None ->
  normalize galaxy = Some g ->
  server (request_of g q) = inr resp ->
  status_code resp < 400 \/ 600 <= status_code resp ->
  run galaxy ra dec radius teff log =
    get_extinction (fun _ => inr (mkResponse 200 (text resp))) get_text
      galaxy ra dec radius teff log.
Proof.
  intros q Hv Hg Hs Hst.
  destruct (run_valid server get_text galaxy ra dec radius teff log Hv)
    as (g1 & Hg1 & ->).
  destruct (run_valid (fun _ => inr (mkResponse 200 (text resp))) get_text
              galaxy ra dec radius teff log Hv) as (g2 & Hg2 & ->).
  assert (g1 = g) by congruence. assert (g2 = g) by congruence. subst g1 g2.
  fold q. rewrite Hs. unfold outcome, status_ok; cbn [status_code text].
  replace ((400 <=? status_code resp) && (status_code resp <? 600)) with false;
    [reflexivity|].
  symmetry. apply andb_false_iff.
  destruct Hst; [left; apply Z.leb_gt; lia|right; apply Z.ltb_ge; lia].
Qed.

(** The radius is compared before its type is ever looked at (line 64):
    once the coordinates have passed, a radius that is [None] or a string
    ends the call with a TypeError, not with InvalidRadius, and nothing is
    sent. *)
Theorem non_numeric_radius_type_error galaxy ra dec radius teff log :
  first_violation coordinate_checks (mkArgs galaxy ra dec radius teff) = None ->
  to_num radius = None ->
  run galaxy ra dec radius teff log = (inl TypeError, log) /\
  TypeError <> InvalidRadius.
Proof.
  intros Hc Hr. split; [|discriminate].
  apply run_invalid. unfold checks. rewrite first_violation_app, Hc.
  cbn [first_violation]. unfold check_radius; cbn [a_radius].
  destruct radius; try discriminate; reflexivity.
Qed.

Lemma coordinates_pass_iff galaxy ra dec radius teff :
  first_violation coordinate_checks (mkArgs galaxy ra dec radius teff) = None <->
  exists g,
    normalize galaxy = Some g /\
    is_float_or_int ra = true /\ is_float_or_int dec = true /\
    in_footprint g ra dec.
Proof.
  split.
  - intros H.
    assert (Hra : is_float_or_int ra = true).
    { revert H. unfold coordinate_checks; cbn [first_violation].
      unfold check_ra_type; cbn [a_ra].
      destruct (is_float_or_int ra); [reflexivity|discriminate]. }
    assert (Hdec : is_float_or_int dec = true).
    { revert H. unfold coordinate_checks; cbn [first_violation].
      unfold check_ra_type, check_dec_type; cbn [a_ra a_dec]. rewrite Hra.
      cbn [negb Exc.ret violated].
      destruct (is_float_or_int dec); [reflexivity|discriminate]. }
    destruct (normalize galaxy) as [g|] eqn:Hg.
    + exists g. split; [reflexivity|split; [exact Hra|split; [exact Hdec|]]].
      destruct (float_or_int_num ra Hra) as [x Hx].
      destruct (float_or_int_num dec Hdec) as [y Hy].
      destruct (coordinate_checks_num galaxy g ra dec radius teff x y
                  Hg Hra Hdec Hx Hy)
        as (u & l & h & l' & h' & Hu & Hl & Hh & Hl' & Hh' & Hlt & Hc).
      rewrite Hc in H. unfold in_footprint.
      rewrite (between_num _ _ _ _ _ _ Hl Hx Hh),
        (between_num _ _ _ _ _ _ Hl' Hy Hh').
      destruct (Num.gtb x u); [discriminate|].
      destruct (Num.leb l x && Num.leb x h); [|discriminate].
      destruct (Num.leb l' y && Num.leb y h'); [|discriminate].
      split; reflexivity.
    + revert H. unfold coordinate_checks; cbn [first_violation].
      unfold check_ra_type, check_dec_type, check_galaxy;
        cbn [a_ra a_dec a_galaxy].
      rewrite Hra, Hdec, Hg. discriminate.
  - intros (g & Hg & Hra & Hdec & Hin).
    destruct (float_or_int_num ra Hra) as [x Hx].
    destruct (float_or_int_num dec Hdec) as [y Hy].
    destruct (coordinate_checks_num galaxy g ra dec radius teff x y
                Hg Hra Hdec Hx Hy)
      as (u & l & h & l' & h' & Hu & Hl & Hh & Hl' & Hh' & Hlt & ->).
    destruct Hin as [Hr Hd].
    rewrite (between_num _ _ _ _ _ _ Hl Hx Hh) in Hr.
    rewrite (between_num _ _ _ _ _ _ Hl' Hy Hh') in Hd.
    injection Hr as Hr. injection Hd as Hd. rewrite Hr, Hd.
    apply andb_true_iff in Hr as [_ Hxh].
    destruct (Num.gtb x u) eqn:Hgt; [|reflexivity].
    rewrite (NumFacts.leb_gtb_trans x u h Hxh Hgt) in Hlt. discriminate.
Qed.

Lemma late_checks_pass_iff galaxy ra dec radius teff :
  first_violation [check_radius; check_teff]
    (mkArgs galaxy ra dec radius teff) = None <->
  exists r s,
    to_num radius = Some r /\ radius_in_range r = true /\
    teff = PyStr s /\ In s ["all"; "cool"; "hot"].
Proof.
  cbn [first_violation]. split.
  - destruct (to_num radius) as [r|] eqn:Hr.
    + rewrite (check_radius_num (mkArgs galaxy ra dec radius teff) r Hr).
      destruct (radius_in_range r) eqn:Hrr; [|discriminate].
      rewrite check_teff_cases; cbn [a_teff].
      destruct (py_in_strs teff ["all"; "cool"; "hot"]) as [e|[]] eqn:Ht;
        [discriminate| |discriminate].
      intros _. apply in_strs_spec in Ht.
      exists r. destruct Ht as [ -> | [ -> | -> ]]; eexists;
        (split; [reflexivity|split; [exact Hrr|split; [reflexivity|]]]);
        cbn; tauto.
    + unfold check_radius; cbn [a_radius].
      destruct radius; try discriminate; cbn; discriminate.
  - intros (r & s & Hr & Hin & Ht & Hs). subst teff.
    rewrite (check_radius_num (mkArgs galaxy ra dec radius (PyStr s)) r Hr), Hin.
    rewrite check_teff_cases; cbn [a_teff].
    replace (py_in_strs (PyStr s) ["all"; "cool"; "hot"])
      with (@inr exn bool true); [reflexivity|].
    symmetry. apply in_strs_spec.
    destruct Hs as [<-|[<-|[<-|[]]]]; tauto.
Qed.

Lemma survey_finite g :
  finite (ra_lo (survey g)) /\ finite (ra_hi (survey g)) /\
  finite (dec_lo (survey g)) /\ finite (dec_hi (survey g)).
Proof.
  destruct g; repeat split; do 2 eexists; vm_compute; reflexivity.
Qed.

Lemma between_finite lo v hi :
  finite lo -> finite hi -> is_float_or_int v = true ->
  between lo v hi = inr true -> finite v.
Proof.
  intros (ml & el & Hl) (mh & eh & Hh) Hv.
  destruct (float_or_int_num v Hv) as [x Hx].
  rewrite (between_num _ _ _ _ _ _ Hl Hx Hh). unfold finite. rewrite Hx.
  destruct x as [|[]|m e]; cbn; try discriminate.
  intros _. now exists m, e.
Qed.

(** The queries that reach the service (lines 38-77): a request is sent
    exactly for a recognised galaxy, float or int coordinates inside its
    rectangle, a radius in (0, 12] and a teff among the three strings; so
    no request ever carries a NaN or infinite ra, dec or radius. *)
Theorem request_iff_acceptable galaxy ra dec radius teff log :
  (snd (run galaxy ra dec radius teff log) <> log <->
   acceptable galaxy ra dec radius teff) /\
  (acceptable galaxy ra dec radius teff ->
   finite ra /\ finite dec /\ finite radius).
Proof.
  assert (V : first_violation checks (mkArgs galaxy ra dec radius teff) = None <->
              acceptable galaxy ra dec radius teff).
  { unfold checks, acceptable. rewrite first_violation_app. split.
    - destruct (first_violation coordinate_checks _) eqn:Hc; [discriminate|].
      intros Hl.
      apply coordinates_pass_iff in Hc as (g & Hg & Hra & Hdec & Hin).
      apply late_checks_pass_iff in Hl as (r & s & Hr & Hrr & Ht & Hs).
      exists g, r, s. tauto.
    - intros (g & r & s & Hg & Hra & Hdec & Hin & Hr & Hrr & Ht & Hs).
      replace (first_violation coordinate_checks _) with (@None exn).
      + apply late_checks_pass_iff. exists r, s. tauto.
      + symmetry. apply coordinates_pass_iff. exists g. tauto. }
  split.
  - rewrite <- V. split.
    + intros H.
      destruct (first_violation checks _) as [e|] eqn:E; [|reflexivity].
      rewrite (run_invalid server get_text _ _ _ _ _ e log E) in H.
      now elim H.
    + intros H.
      destruct (run_valid server get_text galaxy ra dec radius teff log H)
        as (g & _ & ->).
      cbn [snd]. intros E. apply (f_equal (@List.length request)) in E.
      rewrite length_app in E. cbn in E. lia.
  - intros (g & r & s & Hg & Hra & Hdec & [Hr Hd] & Hrad & Hrr & _).
    destruct (survey_finite g) as (F1 & F2 & F3 & F4).
    split; [|split].
    + exact (between_finite _ _ _ F1 F2 Hra Hr).
    + exact (between_finite _ _ _ F3 F4 Hdec Hd).
    + unfold finite. rewrite Hrad. unfold radius_in_range in Hrr.
      destruct r as [|[]|m e]; cbn in Hrr; try discriminate.
      now exists m, e.
Qed.

(** The [elif] of line 92: a line that bears both markers only sets the
    mean.  When every line with the deviation marker also bears ["<Av> ="],
    no deviation is ever set and a successful request ends in
    NoStarsFound. *)
Theorem deviation_behind_mean_marker galaxy ra dec radius teff resp log :
  answered server (mkArgs galaxy ra dec radius teff) resp ->
  (forall l, In l (PyStr.splitlines (get_text (text resp))) ->
     PyStr.contains SD_MARKER (PyStr.strip l) = true ->
     PyStr.contains AV_MARKER (PyStr.strip l) = true) ->
  fst (run galaxy ra dec radius teff log) = inl NoStarsFound.
Proof.
  intros Ha H.
  rewrite (run_answered server get_text _ _ _ _ _ _ _ Ha); cbv zeta.
  rewrite (last_value_none stdev_of).
  - now destruct (last_value mean_of _ None).
  - intros l Hl. unfold stdev_of.
    destruct (PyStr.contains AV_MARKER (PyStr.strip l)) eqn:Ea; [reflexivity|].
    destruct (PyStr.contains SD_MARKER (PyStr.strip l)) eqn:Es; [|reflexivity].
    rewrite (H l Hl Es) in Ea. discriminate.
Qed.

End Coverage.

(** ** Further properties of the scan *)

Lemma last_value_skip {A} (f : string -> option A) pre l post init :
  f l = None ->
  last_value f (pre ++ l :: post)%list init = last_value f (pre ++ post)%list init.
Proof.
  intros Hl. revert init. induction pre as [|p pre IH]; intros init; cbn.
  - now rewrite Hl.
  - apply IH.
Qed.

Lemma last_value_swap {A} (f : string -> option A) pre a b post init :
  f a = None \/ f b = None ->
  last_value f (pre ++ a :: b :: post)%list init =
  last_value f (pre ++ b :: a :: post)%list init.
Proof.
  intros H. revert init. induction pre as [|p pre IH]; intros init; cbn.
  - destruct H as [H|H]; rewrite H; now destruct (f a), (f b).
  - apply IH.
Qed.

(** Lines that set nothing (lines 85-96): a line without either marker, or
    a marker line whose value does not parse, can be added to or removed
    from the text anywhere without changing what the scan finds; a failed
    parse never erases a value found earlier. *)
Theorem scan_ignores_inert_line pre l post st :
  (PyStr.contains AV_MARKER (PyStr.strip l) = false /\
   PyStr.contains SD_MARKER (PyStr.strip l) = false) \/
  (exists e, parse_value (PyStr.strip l) = inl e) ->
  scan (pre ++ l :: post)%list st = scan (pre ++ post)%list st.
Proof.
  intros H. destruct st as [m s]. rewrite !scan_spec.
  assert (Hm : mean_of l = None /\ stdev_of l = None).
  { unfold mean_of, stdev_of, line_value.
    destruct H as [[-> ->]|[e ->]]; [now split|].
    destruct (PyStr.contains AV_MARKER (PyStr.strip l));
      [|destruct (PyStr.contains SD_MARKER (PyStr.strip l))]; now split. }
  destruct Hm as [Hm Hs].
  now rewrite (last_value_skip mean_of _ _ _ _ Hm),
    (last_value_skip stdev_of _ _ _ _ Hs).
Qed.

(** The two fields do not interfere (lines 87-96): exchanging a line that
    bears ["<Av> ="] with a neighbouring line that does not leaves the
    outcome of the scan unchanged, so the mean and the deviation may come
    in either order. *)
Theorem scan_fields_commute pre l1 l2 post st :
  PyStr.contains AV_MARKER (PyStr.strip l1) = true ->
  PyStr.contains AV_MARKER (PyStr.strip l2) = false ->
  scan (pre ++ l1 :: l2 :: post)%list st = scan (pre ++ l2 :: l1 :: post)%list st.
Proof.
  intros H1 H2. destruct st as [m s]. rewrite !scan_spec.
  rewrite (last_value_swap mean_of pre l1 l2 post m),
    (last_value_swap stdev_of pre l1 l2 post s); [reflexivity| |].
  - left. unfold stdev_of. now rewrite H1.
  - right. unfold mean_of. now rewrite H2.
Qed.

(** ** Properties of the script *)

Lemma parsed_galaxy ns :
  parsed ns -> exists g, normalize (ns_galaxy ns) = Some g.
Proof.
  intros [[<-|[<-|[]]] _]; eexists; vm_compute; reflexivity.
Qed.

(** The only checks that a parsed namespace can violate. *)
Lemma parsed_violation ns e :
  parsed ns ->
  first_violation checks (query_of ns) = Some e ->
  exists msg,
    e = ValueError msg /\
    (is_CoordinateUnitMismatch e = true \/ is_CoordinateOutOfRange e = true \/
     e = InvalidRadius).
Proof.
  intros Hp. destruct (parsed_galaxy ns Hp) as [g Hg].
  destruct Hp as [_ Ht]. destruct ns as [galaxy ra dec radius teff].
  unfold query_of; cbn [ns_galaxy ns_ra ns_dec ns_radius ns_teff] in *.
  destruct (coordinate_checks_num galaxy g (PyFloat ra) (PyFloat dec)
              (PyFloat radius) (PyStr teff) _ _ Hg eq_refl eq_refl eq_refl eq_refl)
    as (u & l & h & l' & h' & _ & _ & _ & _ & _ & _ & Hc).
  unfold checks. rewrite first_violation_app, Hc.
  destruct (Num.gtb (Num.of_float ra) u).
  { intros [= <-]. eexists; split; [reflexivity|]. left. now destruct g. }
  destruct (negb _).
  { intros [= <-]. eexists; split; [reflexivity|]. right; left. now destruct g. }
  destruct (negb _).
  { intros [= <-]. eexists; split; [reflexivity|]. right; left. now destruct g. }
  cbn [first_violation].
  rewrite (check_radius_num
             (mkArgs galaxy (PyFloat ra) (PyFloat dec) (PyFloat radius) (PyStr teff))
             (Num.of_float radius) eq_refl).
  destruct (radius_in_range _).
  - rewrite check_teff_cases; cbn [a_teff].
    replace (py_in_strs (PyStr teff) ["all"; "cool"; "hot"])
      with (@inr exn bool true); [discriminate|].
    symmetry. apply in_strs_spec.
    destruct Ht as [<-|[<-|[<-|[]]]]; tauto.
  - intros [= <-]. eexists; split; [reflexivity|]. tauto.
Qed.

Section ScriptCall.

Variable server : request -> string + response.
Variable get_text : string -> string.

Lemma script_run_eq args log :
  get_extinction server get_text
    (ns_galaxy args) (PyFloat (ns_ra args)) (PyFloat (ns_dec args))
    (PyFloat (ns_radius args)) (PyStr (ns_teff args)) log =
  match first_violation checks (query_of args), normalize (ns_galaxy args) with
  | Some e, _ => (inl e, log)
  | None, Some g =>
      (outcome get_text (server (request_of g (query_of args))),
       (log ++ [request_of g (query_of args)])%list)
  | None, None => (inl InvalidGalaxy, log)
  end.
Proof. apply run_eq. Qed.

(** Through the script (lines 109-124) the checks on the galaxy name, on
    the type of ra and dec and on teff can never fail, and the radius is
    always a number: the call only ever fails with a unit mismatch, an
    out-of-range coordinate, an invalid radius, NoStarsFound or a request
    exception. *)
Theorem script_reachable_errors args log e :
  parsed args ->
  fst (get_extinction server get_text
         (ns_galaxy args) (PyFloat (ns_ra args)) (PyFloat (ns_dec args))
         (PyFloat (ns_radius args)) (PyStr (ns_teff args)) log) = inl e ->
  (is_CoordinateUnitMismatch e = true \/ is_CoordinateOutOfRange e = true \/
   e = InvalidRadius \/ e = NoStarsFound \/ exists msg, e = RequestException msg) /\
  e <> InvalidGalaxy /\ is_InvalidCoordinateType e = false /\
  e <> InvalidTeff /\ e <> TypeError.
Proof.
  intros Hp. rewrite script_run_eq.
  destruct (parsed_galaxy args Hp) as [g ->].
  destruct (first_violation checks (query_of args)) as [e'|] eqn:V; cbn [fst].
  - intros [= <-]. destruct (parsed_violation args e' Hp V) as (msg & -> & H).
    split; [tauto|].
    destruct H as [H|[H|H]].
    + unfold is_CoordinateUnitMismatch in H. apply orb_true_iff in H.
      destruct H as [H|H]; apply String.eqb_eq in H; subst msg;
        repeat split; discriminate.
    + unfold is_CoordinateOutOfRange in H. rewrite !orb_true_iff in H.
      destruct H as [[[H|H]|H]|H]; apply String.eqb_eq in H; subst msg;
        repeat split; discriminate.
    + rewrite H. repeat split; discriminate.
  - intros H. destruct (outcome_error _ _ _ H) as [->|[msg ->]].
    + split; [tauto|]. repeat split; discriminate.
    + split; [right; right; right; right; now exists msg|].
      repeat split; discriminate.
Qed.

End ScriptCall.

Section ScriptFacts.

Variable server : request -> string + response.
Variable get_text : string -> string.
Variable float_str : PyFloat.float -> string.
Variable request_str : string -> string.

Local Abbreviation script := (main server get_text float_str request_str).

(** The [try] statement (lines 117-129) catches everything that the call
    can raise on a parsed namespace: the script prints exactly one line,
    headed "Mean Av: ", "Input error: " or "Request error: ", ends without
    an exception, and has sent at most one request. *)
Theorem script_prints_one_line args log :
  parsed args ->
  exists line,
    fst (script args log) = mkScriptRun [line] None /\
    ((exists m s, line = "Mean Av: " ++ float_str m
                           ++ " mag, Standard deviation: " ++ float_str s ++ " mag") \/
     (exists msg, line = "Input error: " ++ msg) \/
     (exists msg, line = "Request error: " ++ request_str msg)) /\
    (snd (script args log) = log \/
     exists req, snd (script args log) = (log ++ [req])%list).
Proof.
  intros Hp. unfold main. rewrite script_run_eq.
  destruct (parsed_galaxy args Hp) as [g ->].
  destruct (first_violation checks (query_of args)) as [e|] eqn:V.
  - destruct (parsed_violation args e Hp V) as (msg & -> & _).
    eexists; split; [reflexivity|split; [|now left]].
    right; left; now exists msg.
  - destruct (outcome get_text _) as [e|[m s]] eqn:O.
    + destruct (outcome_error _ _ _ O) as [->|[msg ->]];
        (eexists; split; [reflexivity|split; [|right; now eexists]]).
      * right; left; now eexists.
      * right; right; now exists msg.
    + eexists; split; [reflexivity|split; [|right; now eexists]].
      left; now exists m, s.
Qed.

(** NoStarsFound is a [ValueError] and is caught by the first handler
    (lines 101, 126-127): when the request of a parsed namespace succeeds
    but the text has no line bearing ["<Av> ="], or none bearing the
    deviation marker, the script reports it as an input error, after
    having sent its request. *)
Theorem script_no_stars_as_input_error args resp log :
  parsed args ->
  answered server (query_of args) resp ->
  (forall l, In l (PyStr.splitlines (get_text (text resp))) ->
     PyStr.contains AV_MARKER (PyStr.strip l) = false) \/
  (forall l, In l (PyStr.splitlines (get_text (text resp))) ->
     PyStr.contains SD_MARKER (PyStr.strip l) = false) ->
  fst (script args log) =
    mkScriptRun
      ["Input error: No stars found within the given radius. Try increasing the radius."]
      None /\
  exists req, snd (script args log) = (log ++ [req])%list.
Proof.
  intros Hp (Hv & Hs & Hok) H. unfold main. rewrite script_run_eq, Hv.
  destruct (parsed_galaxy args Hp) as [g Hg]. rewrite Hg.
  unfold outcome. rewrite (Hs g Hg), Hok. cbv zeta.
  assert (E : result_of
                (last_value mean_of (PyStr.splitlines (get_text (text resp))) None,
                 last_value stdev_of (PyStr.splitlines (get_text (text resp))) None)
              = inl NoStarsFound).
  { destruct H as [H|H].
    - rewrite (last_value_none mean_of); [reflexivity|].
      intros l Hl. unfold mean_of. now rewrite (H l Hl).
    - rewrite (last_value_none stdev_of);
        [now destruct (last_value mean_of _ None)|].
      intros l Hl. unfold stdev_of. rewrite (H l Hl).
      now destruct (PyStr.contains AV_MARKER (PyStr.strip l)). }
  rewrite E. split; [reflexivity|now eexists].
Qed.

(** The line printed on success (lines 118-125): when the request of a
    parsed namespace succeeds, the script prints the values of the last
    line that sets the mean and of the last line that sets the deviation,
    in this order, each as the f-string formats a float. *)
Theorem script_success_line
    args resp log pre1 l1 post1 v pre2 l2 post2 w :
  parsed args ->
  answered server (query_of args) resp ->
  PyStr.splitlines (get_text (text resp)) = (pre1 ++ l1 :: post1)%list ->
  mean_of l1 = Some v ->
  (forall l, In l post1 -> mean_of l = None) ->
  PyStr.splitlines (get_text (text resp)) = (pre2 ++ l2 :: post2)%list ->
  stdev_of l2 = Some w ->
  (forall l, In l post2 -> stdev_of l = None) ->
  fst (script args log) =
    mkScriptRun
      ["Mean Av: " ++ float_str v ++ " mag, Standard deviation: "
         ++ float_str w ++ " mag"] None.
Proof.
  intros Hp (Hv & Hs & Hok) E1 S1 P1 E2 S2 P2.
  unfold main. rewrite script_run_eq, Hv.
  destruct (parsed_galaxy args Hp) as [g Hg]. rewrite Hg.
  unfold outcome. rewrite (Hs g Hg), Hok. cbv zeta.
  rewrite E1 at 1. rewrite E2.
  rewrite (last_value_last mean_of pre1 l1 post1 v),
    (last_value_last stdev_of pre2 l2 post2 w); trivial.
Qed.

End ScriptFacts.

(** ** Concrete runs for the further properties *)

Lemma mock_script_answered text :
  answered (Mock.serve text) (query_of MockScript.ns) (mkResponse 200 text).
Proof.
  split; [vm_compute; reflexivity|split; [intros; reflexivity|reflexivity]].
Defined.


(** "lmc" and "LMC". *)
Lemma galaxy_case_insensitive_witness :
  get_extinction (Mock.serve Mock.sample) (Mock.extracts Mock.sample)
    "lmc" (flt "5.20") (neg_flt "69.50") (PyInt 10) (PyStr "all") [] =
  Mock.run Mock.sample.
Proof.
  apply galaxy_case_insensitive. vm_compute; reflexivity.
Defined.

(** A service that answers 404 with the sample page as its body. *)
Lemma failed_request_raises_witness :
  get_extinction (fun _ => inr (mkResponse 404 Mock.sample))
    (Mock.extracts Mock.sample)
    "LMC" (flt "5.20") (neg_flt "69.50") (PyInt 10) (PyStr "all") [] =
  (inl (RequestException "HTTPError"), [request_of LMC Mock.query]).
Proof.
  apply (proj2 (failed_request_raises (fun _ => inr (mkResponse 404 Mock.sample))
           (Mock.extracts Mock.sample)
           "LMC" LMC (flt "5.20") (neg_flt "69.50") (PyInt 10) (PyStr "all") []
           eq_refl eq_refl) (mkResponse 404 Mock.sample) eq_refl).
  cbn; lia.
Defined.

(** A service that answers 302 with the sample page as its body. *)
Lemma other_status_as_200_witness :
  get_extinction (fun _ => inr (mkResponse 302 Mock.sample))
    (Mock.extracts Mock.sample)
    "LMC" (flt "5.20") (neg_flt "69.50") (PyInt 10) (PyStr "all") [] =
  Mock.run Mock.sample.
Proof.
  apply (other_status_as_200 (fun _ => inr (mkResponse 302 Mock.sample))
           (Mock.extracts Mock.sample)
           "LMC" LMC (flt "5.20") (neg_flt "69.50") (PyInt 10) (PyStr "all")
           (mkResponse 302 Mock.sample) [] eq_refl eq_refl eq_refl).
  cbn; lia.
Defined.

(** The sample query is acceptable, so its three numbers are finite. *)
Lemma request_iff_acceptable_witness :
  finite (flt "5.20") /\ finite (neg_flt "69.50") /\ finite (PyInt 10).
Proof.
  apply (proj2 (request_iff_acceptable (Mock.serve "") (Mock.extracts "")
           "LMC" (flt "5.20") (neg_flt "69.50") (PyInt 10) (PyStr "all") [])).
  exists LMC, (Num.of_Z 10), "all".
  repeat split; try (vm_compute; reflexivity). cbn; tauto.
Defined.

(** A page whose only line bears both markers. *)
Lemma deviation_behind_mean_marker_witness :
  fst (Mock.run MockScript.both_markers) = inl NoStarsFound.
Proof.
  apply (deviation_behind_mean_marker (Mock.serve MockScript.both_markers)
           (Mock.extracts MockScript.both_markers)
           "LMC" (flt "5.20") (neg_flt "69.50") (PyInt 10) (PyStr "all")
           (mkResponse 200 MockScript.both_markers) []
           (mock_answered MockScript.both_markers)).
  intros l [<-|[]] _. vm_compute; reflexivity.
Defined.

(** The radius given as the string "5". *)
Lemma non_numeric_radius_type_error_witness :
  get_extinction (Mock.serve "") (Mock.extracts "")
    "LMC" (flt "5.20") (neg_flt "69.50") (PyStr "5") (PyStr "all") [] =
  (inl TypeError, []).
Proof.
  apply (non_numeric_radius_type_error (Mock.serve "") (Mock.extracts "")
           "LMC" (flt "5.20") (neg_flt "69.50") (PyStr "5") (PyStr "all") []);
    reflexivity.
Defined.

(** A marker line without a number between the two sample lines. *)
Lemma scan_ignores_inert_line_witness :
  scan [Mock.av_045; "<Av> = n/a"; Mock.sd_012] (None, None) =
  scan [Mock.av_045; Mock.sd_012] (None, None).
Proof.
  apply (scan_ignores_inert_line [Mock.av_045] "<Av> = n/a" [Mock.sd_012]).
  right. eexists. vm_compute. reflexivity.
Defined.

(** The two sample lines in either order. *)
Lemma scan_fields_commute_witness :
  scan [Mock.av_045; Mock.sd_012] (None, None) =
  scan [Mock.sd_012; Mock.av_045] (None, None).
Proof.
  apply (scan_fields_commute [] Mock.av_045 Mock.sd_012 []);
    vm_compute; reflexivity.
Defined.

(** [--ra 78.0]: the error is the unit mismatch. *)
Lemma script_reachable_errors_witness :
  ValueError Msg.lmc_units <> InvalidGalaxy /\
  is_InvalidCoordinateType (ValueError Msg.lmc_units) = false /\
  ValueError Msg.lmc_units <> InvalidTeff /\
  ValueError Msg.lmc_units <> TypeError.
Proof.
  apply (script_reachable_errors (Mock.serve "") (Mock.extracts "")
           MockScript.ns_degrees [] (ValueError Msg.lmc_units)).
  - split; cbn; tauto.
  - vm_compute; reflexivity.
Defined.

(** The script on the sample page. *)
Lemma script_prints_one_line_witness :
  exists line,
    fst (main (Mock.serve Mock.sample) (Mock.extracts Mock.sample)
           MockScript.show MockScript.describe MockScript.ns []) =
      mkScriptRun [line] None.
Proof.
  destruct (script_prints_one_line (Mock.serve Mock.sample)
              (Mock.extracts Mock.sample) MockScript.show MockScript.describe
              MockScript.ns []) as (line & H & _).
  - split; cbn; tauto.
  - now exists line.
Defined.

(** The script on a page without marker lines. *)
Lemma script_no_stars_as_input_error_witness :
  fst (main (Mock.serve Mock.no_marker) (Mock.extracts Mock.no_marker)
         MockScript.show MockScript.describe MockScript.ns []) =
  mkScriptRun
    ["Input error: No stars found within the given radius. Try increasing the radius."]
    None.
Proof.
  apply (script_no_stars_as_input_error (Mock.serve Mock.no_marker)
           (Mock.extracts Mock.no_marker) MockScript.show MockScript.describe
           MockScript.ns (mkResponse 200 Mock.no_marker) []).
  - split; cbn; tauto.
  - apply mock_script_answered.
  - left. intros l [<-|[]]. vm_compute; reflexivity.
Defined.

(** The script on the page with two lines for each marker. *)
Lemma script_success_line_witness :
  fst (main (Mock.serve Mock.two_of_each) (Mock.extracts Mock.two_of_each)
         MockScript.show MockScript.describe MockScript.ns []) =
  mkScriptRun ["Mean Av: <float> mag, Standard deviation: <float> mag"] None.
Proof.
  apply (script_success_line (Mock.serve Mock.two_of_each)
           (Mock.extracts Mock.two_of_each) MockScript.show MockScript.describe
           MockScript.ns (mkResponse 200 Mock.two_of_each) []
           [Mock.av_045; Mock.sd_012] Mock.av_099 [Mock.sd_030] (PyFloat.lit "0.99")
           [Mock.av_045; Mock.sd_012; Mock.av_099] Mock.sd_030 [] (PyFloat.lit "0.30")).
  - split; cbn; tauto.
  - apply mock_script_answered.
  - vm_compute; reflexivity.
  - vm_compute; reflexivity.
  - intros l [<-|[]]; vm_compute; reflexivity.
  - vm_compute; reflexivity.
  - vm_compute; reflexivity.
  - intros l [].
Defined.

(** C7.  The claim holds for numbers but the code misses it for a radius
    that is not a number: with a valid galaxy, ra and dec, a radius [None]
    or ["5"] does not satisfy 0 < radius <= 12, yet the call ends in a
    TypeError raised by the comparison of line 64, not in InvalidRadius.
    The docstring announces a ValueError for invalid inputs, and the same
    string given for ra is rejected with a ValueError by the type test of
    line 38, which the radius lacks. *)
Theorem radius_type_not_checked :
  let call ra radius :=
    get_extinction (Mock.serve "") (Mock.extracts "")
      "LMC" ra (neg_flt "69.50") radius (PyStr "all") [] in
  call (flt "5.20") PyNone = (inl TypeError, []) /\
  call (flt "5.20") (PyStr "5") = (inl TypeError, []) /\
  TypeError <> InvalidRadius /\
  call (PyStr "5") (PyInt 5) = (inl (ValueError Msg.ra_type), []).
Proof.
  cbv zeta. repeat split; try (vm_compute; reflexivity). discriminate.
Qed.

(** ** The whitespace above 127

    NO-BREAK SPACE separates tokens and is stripped, NEL (U+0085) ends a
    line, and [float] strips both but not the separators FS..US. *)
Lemma whitespace_above_127 :
  let nbsp := String "160"%char EmptyString in
  let nel := String "133"%char EmptyString in
  mean_of ("<Av> =" ++ nbsp ++ "0.99") = Some (PyFloat.lit "0.99") /\
  PyStr.splitlines (Mock.av_045 ++ nel ++ Mock.sd_012) =
    [Mock.av_045; Mock.sd_012] /\
  PyStr.strip (nbsp ++ "0.45" ++ nel) = "0.45" /\
  py_float (nel ++ "0.45" ++ nbsp) = inr (PyFloat.lit "0.45") /\
  PyStr.strip (String "028"%char "0.45") = "0.45" /\
  (exists e, py_float (String "028"%char "0.45") = inl e).
Proof.
  cbv zeta. repeat split; try (vm_compute; reflexivity).
  eexists; vm_compute; reflexivity.
Qed.
